(** * Event subscriber for VideoAnalytics object detections

    A shallow embedding of [axevent/custome_subscribe.py]: the function
    [subscribe_to_events] opens a streaming HTTP GET on a camera, reads the
    body line by line, echoes every non-empty line, decodes the payload of
    [data:] lines as JSON and prints a block for object detections.

    Layout:
    - [Str]: Python [str] as a list of code points, with [startswith],
      slicing, [strip] and the [in] substring test;
    - [Json]: decoded values and [json.loads] (the scanner of the standard
      [json] package: [scanstring], [JSONObject], [JSONArray], numbers);
    - [Subscribe]: the effects of the function (calls made to [print],
      [requests] and [json]), the exceptions and the function itself, in
      an ideal environment: every [print] succeeds, the interpreter has
      no limits, every line is text;
    - [Runtime]: [json.loads] under the limits of the interpreter on the
      digits of an integer and on the depth of nesting;
    - [Session]: the function in any environment: a console that may
      refuse a text, lines that arrive as text or as bytes, an
      interpreter with limits, exceptions of any class;
    - [StrFacts], [JsonFacts]: what the string tests decide, and that the
      scanner always reaches a verdict within the budget [loads] gives it;
    - [SubscribeFacts], [RunFacts]: the ideal environment: the example of
      the specification, the request, payloads that are not envelopes,
      white space around the payload, failed requests, whole runs;
    - [RuntimeFacts]: the decoder with limits agrees with the plain one
      wherever it does not refuse;
    - [SessionFacts]: any environment: what [strip] yields, the
      processing loop, detections, the whole function, and that the
      ideal environment gives back [Subscribe]. *)

From Stdlib Require Import List NArith ZArith Ascii String Bool Arith Lia.
Import ListNotations.

Set Implicit Arguments.
#[local] Set Warnings "-register-all".

(* ================================================================== *)
(** ** Python strings *)
(* ================================================================== *)

Module Str.

(** A [str] is a sequence of Unicode code points. *)
Definition str : Type := list N.

(** An ASCII literal of the source, as a [str]. *)
Definition lit (s : string) : str :=
  map N_of_ascii (list_ascii_of_string s).

(** The double quote, which a literal cannot hold directly. *)
Definition dquote : N := 34%N.
Definition quoted (s : str) : str := dquote :: s ++ [dquote].

Fixpoint eqb (a b : str) : bool :=
  match a, b with
  | [], [] => true
  | x :: a', y :: b' => N.eqb x y && eqb a' b'
  | _, _ => false
  end.

(** [s.startswith(prefix)] *)
Fixpoint startswith (prefix s : str) : bool :=
  match prefix, s with
  | [], _ => true
  | p :: prefix', c :: s' => N.eqb p c && startswith prefix' s'
  | _ :: _, [] => false
  end.

(** [s[n:]] *)
Definition slice_from (n : nat) (s : str) : str := skipn n s.

(** [bool(s)]: a string is true when it is not empty. *)
Definition truthy (s : str) : bool :=
  match s with [] => false | _ :: _ => true end.

(** The code points [str.strip()] removes (Unicode white space). *)
Definition is_space (c : N) : bool :=
  ((9 <=? c) && (c <=? 13) || (28 <=? c) && (c <=? 32) ||
   (c =? 0x85) || (c =? 0xA0) || (c =? 0x1680) ||
   (0x2000 <=? c) && (c <=? 0x200A) ||
   (c =? 0x2028) || (c =? 0x2029) || (c =? 0x202F) ||
   (c =? 0x205F) || (c =? 0x3000))%N.

Fixpoint lstrip (s : str) : str :=
  match s with
  | c :: s' => if is_space c then lstrip s' else s
  | [] => []
  end.

Definition rstrip (s : str) : str := rev (lstrip (rev s)).

(** [s.strip()] *)
Definition strip (s : str) : str := rstrip (lstrip s).

(** [sub in s] for two strings: [sub] occurs in [s] at some offset. *)
Fixpoint contains (sub s : str) : bool :=
  startswith sub s ||
  match s with
  | [] => false
  | _ :: s' => contains sub s'
  end.

(** [s * n] *)
Fixpoint times (s : str) (n : nat) : str :=
  match n with
  | O => []
  | S n' => s ++ times s n'
  end.

(** What [contains] decides: [sub] is a contiguous part of [s]. *)
Definition occurs_in (sub s : str) : Prop :=
  exists before after, s = before ++ sub ++ after.

End Str.

Import Str.

(* ================================================================== *)
(** ** Decoded JSON values and [json.loads] *)
(* ================================================================== *)

Module Json.

(** The Python values [json.loads] builds.  An integer literal becomes an
    [int]; a literal with a fraction or an exponent, and the constants
    [NaN], [Infinity] and [-Infinity], become a [float], kept here by the
    text handed to [float()]. An object becomes a [dict], kept in
    insertion order. *)
Inductive json : Type :=
| JNone
| JBool (b : bool)
| JInt (z : Z)
| JFloat (text : str)
| JStr (s : str)
| JList (items : list json)
| JDict (pairs : list (str * json)).

(** *** Dictionaries *)

(** [d[key] = v] on an insertion-ordered dictionary. *)
Fixpoint dict_set (d : list (str * json)) (key : str) (v : json)
  : list (str * json) :=
  match d with
  | [] => [(key, v)]
  | (k, w) :: d' =>
      if Str.eqb k key then (k, v) :: d' else (k, w) :: dict_set d' key v
  end.

(** [dict(pairs)]: a later pair replaces the value of an equal key. *)
Definition dict_of_pairs (pairs : list (str * json)) : list (str * json) :=
  fold_left (fun d kv => dict_set d (fst kv) (snd kv)) pairs [].

Fixpoint dict_lookup (d : list (str * json)) (key : str) : option json :=
  match d with
  | [] => None
  | (k, w) :: d' => if Str.eqb k key then Some w else dict_lookup d' key
  end.

(** *** The scanner *)

(** Outcome of a scanning function: a value and the text left after it,
    a [JSONDecodeError], or a budget of recursive calls used up (which
    [loads] never meets, see [JsonFacts.scan_once_enough_fuel]). *)
Inductive scan (A : Type) : Type :=
| Scanned (a : A) (rest : str)
| Invalid
| Exhausted.
Arguments Invalid {A}.
Arguments Exhausted {A}.

(** [WHITESPACE]: space, tab, line feed and carriage return. *)
Definition is_ws (c : N) : bool :=
  ((c =? 32) || (c =? 9) || (c =? 10) || (c =? 13))%N.

Fixpoint skip_ws (s : str) : str :=
  match s with
  | c :: s' => if is_ws c then skip_ws s' else s
  | [] => []
  end.

Definition is_digit (c : N) : bool := ((48 <=? c) && (c <=? 57))%N.

Definition hex_value (c : N) : option N :=
  (if (48 <=? c) && (c <=? 57) then Some (c - 48)
   else if (65 <=? c) && (c <=? 70) then Some (c - 55)
   else if (97 <=? c) && (c <=? 102) then Some (c - 87)
   else None)%N.

(** [_decode_uXXXX]: the four hexadecimal digits after [\u]. *)
Definition decode_uXXXX (a b c d : N) : option N :=
  match hex_value a, hex_value b, hex_value c, hex_value d with
  | Some x, Some y, Some z, Some w => Some (((x * 16 + y) * 16 + z) * 16 + w)%N
  | _, _, _, _ => None
  end.

(** [BACKSLASH]: the one-letter escapes. *)
Definition backslash (c : N) : option N :=
  (if c =? 34 then Some 34         (* double quote *)
   else if c =? 92 then Some 92    (* backslash *)
   else if c =? 47 then Some 47    (* slash *)
   else if c =? 98 then Some 8     (* b: backspace *)
   else if c =? 102 then Some 12   (* f: form feed *)
   else if c =? 110 then Some 10   (* n: line feed *)
   else if c =? 114 then Some 13   (* r: carriage return *)
   else if c =? 116 then Some 9    (* t: tab *)
   else None)%N.

Definition is_high_surrogate (u : N) : bool :=
  ((0xD800 <=? u) && (u <=? 0xDBFF))%N.
Definition is_low_surrogate (u : N) : bool :=
  ((0xDC00 <=? u) && (u <=? 0xDFFF))%N.
Definition join_surrogates (hi lo : N) : N :=
  (0x10000 + N.lor (N.shiftl (hi - 0xD800) 10) (lo - 0xDC00))%N.

Definition push (c : N) (r : option (str * str)) : option (str * str) :=
  match r with
  | Some (content, rest) => Some (c :: content, rest)
  | None => None
  end.

(** [scanstring(s, end, strict=True)], entered just after the opening
    quote: the decoded content and the text after the closing quote, or
    [None] for a [JSONDecodeError] (unterminated string, control
    character, bad escape). *)
Fixpoint scanstring (s : str) : option (str * str) :=
  match s with
  | [] => None
  | c :: t =>
      if (c =? 34)%N then Some ([], t)
      else if (c =? 92)%N then
        match t with
        | [] => None
        | e :: t1 =>
            if (e =? 117)%N then
              match t1 with
              | h1 :: h2 :: h3 :: h4 :: t2 =>
                  match decode_uXXXX h1 h2 h3 h4 with
                  | None => None
                  | Some uni =>
                      match t2 with
                      | b :: u :: l1 :: l2 :: l3 :: l4 :: t3 =>
                          if is_high_surrogate uni && (b =? 92)%N && (u =? 117)%N
                          then
                            match decode_uXXXX l1 l2 l3 l4 with
                            | None => None
                            | Some uni2 =>
                                if is_low_surrogate uni2
                                then push (join_surrogates uni uni2) (scanstring t3)
                                else push uni (scanstring t2)
                            end
                          else push uni (scanstring t2)
                      | _ => push uni (scanstring t2)
                      end
                  end
              | _ => None
              end
            else
              match backslash e with
              | Some ch => push ch (scanstring t1)
              | None => None
              end
        end
      else if (c <? 32)%N then None
      else push c (scanstring t)
  end.

(** *** Numbers *)

Fixpoint span_digits (s : str) : str * str :=
  match s with
  | c :: s' =>
      if is_digit c
      then let (ds, rest) := span_digits s' in (c :: ds, rest)
      else ([], s)
  | [] => ([], [])
  end.

(** [int(text)] for a run of decimal digits. *)
Definition int_of_digits (ds : str) : Z :=
  fold_left (fun acc c => acc * 10 + Z.of_N (c - 48)%N)%Z ds 0%Z.

(** The integer part of [NUMBER_RE]: an optional minus sign, then either
    a single 0 or a digit 1-9 followed by any digits.  Returns the sign,
    the digits and the text after them. *)
Definition match_integer (s : str) : option (bool * str * str) :=
  let (neg, s1) :=
    match s with
    | c :: t => if (c =? 45)%N then (true, t) else (false, s)
    | [] => (false, s)
    end in
  match s1 with
  | c :: t =>
      if (c =? 48)%N then Some (neg, [c], t)
      else if is_digit c
           then let (ds, rest) := span_digits t in Some (neg, c :: ds, rest)
           else None
  | [] => None
  end.

(** The optional fraction of [NUMBER_RE]: a dot and at least one digit. *)
Definition match_frac (s : str) : str * str :=
  match s with
  | c :: t =>
      if (c =? 46)%N then
        match span_digits t with
        | ([], _) => ([], s)
        | (ds, rest) => (c :: ds, rest)
        end
      else ([], s)
  | [] => ([], s)
  end.

(** The optional exponent of [NUMBER_RE]: e or E, an optional sign and
    at least one digit. *)
Definition match_exp (s : str) : str * str :=
  match s with
  | e :: t =>
      if (e =? 101)%N || (e =? 69)%N then
        let (sign, t1) :=
          match t with
          | c :: t' => if (c =? 45)%N || (c =? 43)%N then ([c], t') else ([], t)
          | [] => ([], t)
          end in
        match span_digits t1 with
        | ([], _) => ([], s)
        | (ds, rest) => (e :: sign ++ ds, rest)
        end
      else ([], s)
  | [] => ([], s)
  end.

(** [NUMBER_RE.match] followed by the conversion of [scan_once]: [int]
    without fraction and exponent, [float] otherwise. *)
Definition match_number (s : str) : option (json * str) :=
  match match_integer s with
  | None => None
  | Some (neg, ds, s1) =>
      let (frac, s2) := match_frac s1 in
      let (exp, s3) := match_exp s2 in
      match frac, exp with
      | [], [] =>
          Some (JInt (if neg then - int_of_digits ds else int_of_digits ds)%Z, s3)
      | _, _ =>
          Some (JFloat ((if neg then [45%N] else []) ++ ds ++ frac ++ exp), s3)
      end
  end.

(** *** Values *)

Definition scan_of_option (A : Type) (r : option (A * str)) : scan A :=
  match r with
  | Some (a, rest) => Scanned a rest
  | None => Invalid
  end.

(** The literal cases of [scan_once] that follow the string, object and
    array cases: [null], [true], [false], a number, then [NaN],
    [Infinity] and [-Infinity]. *)
Definition scan_atom (s : str) : option (json * str) :=
  if startswith (lit "null") s then Some (JNone, skipn 4 s)
  else if startswith (lit "true") s then Some (JBool true, skipn 4 s)
  else if startswith (lit "false") s then Some (JBool false, skipn 5 s)
  else
    match match_number s with
    | Some r => Some r
    | None =>
        if startswith (lit "NaN") s then Some (JFloat (lit "NaN"), skipn 3 s)
        else if startswith (lit "Infinity") s
             then Some (JFloat (lit "Infinity"), skipn 8 s)
        else if startswith (lit "-Infinity") s
             then Some (JFloat (lit "-Infinity"), skipn 9 s)
        else None
    end.

(** [scan_once], with the loops of [JSONObject] and [JSONArray].  Each
    recursive call spends one unit of [fuel].

    - [scan_once fuel s] scans one value at the head of [s];
    - [object_members fuel pairs s] is the [while True] loop of
      [JSONObject], entered after the quote that opens a key, with the
      pairs read so far;
    - [array_items fuel values s] is the [while True] loop of
      [JSONArray], entered where the next item starts. *)
Fixpoint scan_once (fuel : nat) (s : str) : scan json :=
  match fuel with
  | O => Exhausted
  | S fuel' =>
      match s with
      | [] => Invalid
      | c :: t =>
          if (c =? 34)%N then
            match scanstring t with
            | Some (content, rest) => Scanned (JStr content) rest
            | None => Invalid
            end
          else if (c =? 123)%N then
            (* JSONObject *)
            match skip_ws t with
            | c1 :: t1 =>
                if (c1 =? 125)%N then Scanned (JDict []) t1
                else if (c1 =? 34)%N then object_members fuel' [] t1
                else Invalid
            | [] => Invalid
            end
          else if (c =? 91)%N then
            (* JSONArray *)
            match skip_ws t with
            | c1 :: t1 =>
                if (c1 =? 93)%N then Scanned (JList []) t1
                else array_items fuel' [] (c1 :: t1)
            | [] => Invalid
            end
          else scan_of_option (scan_atom s)
      end
  end

with object_members (fuel : nat) (pairs : list (str * json)) (s : str)
  : scan json :=
  match fuel with
  | O => Exhausted
  | S fuel' =>
      match scanstring s with
      | None => Invalid
      | Some (key, s1) =>
          match skip_ws s1 with
          | colon :: s2 =>
              if (colon =? 58)%N then
                match scan_once fuel' (skip_ws s2) with
                | Scanned value s3 =>
                    let pairs' := pairs ++ [(key, value)] in
                    match skip_ws s3 with
                    | c :: s4 =>
                        if (c =? 125)%N
                        then Scanned (JDict (dict_of_pairs pairs')) s4
                        else if (c =? 44)%N then
                          match skip_ws s4 with
                          | q :: s5 =>
                              if (q =? 34)%N
                              then object_members fuel' pairs' s5
                              else Invalid
                          | [] => Invalid
                          end
                        else Invalid
                    | [] => Invalid
                    end
                | Invalid => Invalid
                | Exhausted => Exhausted
                end
              else Invalid
          | [] => Invalid
          end
      end
  end

with array_items (fuel : nat) (values : list json) (s : str) : scan json :=
  match fuel with
  | O => Exhausted
  | S fuel' =>
      match scan_once fuel' s with
      | Scanned value s1 =>
          let values' := values ++ [value] in
          match skip_ws s1 with
          | c :: s2 =>
              if (c =? 93)%N then Scanned (JList values') s2
              else if (c =? 44)%N then array_items fuel' values' (skip_ws s2)
              else Invalid
          | [] => Invalid
          end
      | Invalid => Invalid
      | Exhausted => Exhausted
      end
  end.

(** The budget [loads] gives the scanner. *)
Definition fuel_for (s : str) : nat := S (2 * List.length s).

(** [json.loads(s)] for a [str]: [Some v] when it returns [v], [None]
    when it raises [JSONDecodeError].  A leading byte order mark is
    refused; the value may be surrounded by white space; anything else
    after it is extra data.  Digits are the ASCII digits, as in the
    compiled scanner that CPython uses. *)
Definition loads (s : str) : option json :=
  if startswith [0xFEFF%N] s then None
  else
    match scan_once (fuel_for s) (skip_ws s) with
    | Scanned v rest =>
        match skip_ws rest with
        | [] => Some v
        | _ :: _ => None
        end
    | Invalid => None
    | Exhausted => None
    end.

End Json.

Import Json.

(* ================================================================== *)
(** ** The subscriber *)
(* ================================================================== *)

Module Subscribe.

(** The function acts on the outside through calls: to [print], to
    [requests] (the request, the status check, the line iterator) and to
    [json.loads].  A run is modelled by the list of the calls it makes and
    by how it ends: it returns, or an exception propagates.

    The outside is modelled as follows.
    - The camera decides what [requests.get], [raise_for_status] and the
      line iterator do: each may raise, and the iterator otherwise
      delivers the lines one by one.
    - The lines are text, as [iter_lines(decode_unicode=True)] delivers
      them for a response that declares its encoding.
    - An exception from the outside arises at one of the blocking network
      calls; this is also where an interrupt from the keyboard is taken.
      [print] writes its text and does not fail.
    - The interpreter is given unbounded resources: no limit on recursion
      depth or on the digits of an integer literal. *)

(** *** Exceptions *)

(** The classes of the exceptions that can arise while the function
    runs.  [OtherException] stands for any other subclass of [Exception]:
    the errors of [requests] (connection refused, timeout, HTTP error
    status, broken stream). *)
Inductive exn_class : Type :=
| KeyboardInterrupt
| JSONDecodeError
| AttributeError
| TypeError
| OtherException.

(** An exception: its class and its string form [str(e)]. *)
Record exn : Type := Exn { exn_class_of : exn_class; exn_str : str }.

(** [isinstance(e, Exception)]: [KeyboardInterrupt] derives from
    [BaseException] only. *)
Definition is_Exception (e : exn) : bool :=
  match exn_class_of e with
  | KeyboardInterrupt => false
  | _ => true
  end.

Definition is_KeyboardInterrupt (e : exn) : bool :=
  match exn_class_of e with
  | KeyboardInterrupt => true
  | _ => false
  end.

Definition is_JSONDecodeError (e : exn) : bool :=
  match exn_class_of e with
  | JSONDecodeError => true
  | _ => false
  end.

(** *** The calls the function makes *)

Inductive auth : Type :=
| HTTPDigestAuth (username password : str).

(** The arguments of [requests.get]. *)
Record request : Type := Request {
  req_url : str;
  req_params : list (str * str);
  req_auth : auth;
  req_stream : bool;
  req_timeout : Z
}.

(** The calls to the outside, in the order they are made: this is the
    observable behaviour of a run. *)
Inductive call : Type :=
| Print (text : str)
| RequestsGet (r : request)
| RaiseForStatus
| IterLines (decode_unicode : bool)
| JsonLoads (s : str).

(** The console output of a run: the texts printed, in order. *)
Fixpoint printed (t : list call) : list str :=
  match t with
  | [] => []
  | Print text :: t' => text :: printed t'
  | _ :: t' => printed t'
  end.

(** *** The camera *)

(** The body of the response as [iter_lines] delivers it: a lazy,
    non-restartable sequence of lines that ends when the connection
    closes ([Eof]) or when waiting for the next line raises ([Fails]: a
    transport error, or [KeyboardInterrupt] when the user interrupts). *)
Inductive stream : Type :=
| Eof
| Fails (e : exn)
| Line (l : str) (rest : stream).

(** What [requests.get] meets: it raises, or returns a response whose
    status is an error or not, and whose body is a stream. *)
Record response : Type := Response {
  status_error : option exn;
  body : stream
}.

Inductive camera : Type :=
| Unreachable (e : exn)
| Responds (r : response).

(** *** Computations *)

Inductive result (A : Type) : Type :=
| Returns (a : A)
| Raises (e : exn).
Arguments Raises {A}.

(** A computation: the calls it made, and how it ended. *)
Definition M (A : Type) : Type := list call * result A.

Definition ret (A : Type) (a : A) : M A := ([], Returns a).

Definition raise (A : Type) (e : exn) : M A := ([], Raises e).
Arguments raise {A} e.

Definition bind (A B : Type) (m : M A) (k : A -> M B) : M B :=
  match m with
  | (t, Returns a) => let (t', r) := k a in (t ++ t', r)
  | (t, Raises e) => (t, Raises e)
  end.

Definition do_call (c : call) : M unit := ([c], Returns tt).

(** [try: m except ...: ...]: [handler e] is the body of the first
    [except] clause that matches [e], if any. *)
Definition try_except (A : Type) (m : M A) (handler : exn -> option (M A))
  : M A :=
  match m with
  | (t, Raises e) =>
      match handler e with
      | Some h => let (t', r) := h in (t ++ t', r)
      | None => (t, Raises e)
      end
  | (t, Returns a) => (t, Returns a)
  end.

Definition calls (A : Type) (m : M A) : list call := fst m.
Definition outcome (A : Type) (m : M A) : result A := snd m.

(** A call is a [print]. *)
Definition is_print (c : call) : bool :=
  match c with
  | Print _ => true
  | _ => false
  end.

(** A computation that makes [print] calls only. *)
Definition quiet (A : Type) (m : M A) : Prop :=
  forallb is_print (calls m) = true.

Declare Scope py_scope.
Delimit Scope py_scope with py.
Notation "x <- m ;; k" := (bind m (fun x => k))
  (at level 61, m at next level, right associativity) : py_scope.
Notation "m ;; k" := (bind m (fun _ => k))
  (at level 61, right associativity) : py_scope.
Local Open Scope py_scope.

Definition print (text : str) : M unit := do_call (Print text).

(** *** The interpreter *)

(** What the Python runtime contributes and the source does not fix:
    [repr] of a decoded value that is not a string (the digits of a
    float, the quoting inside lists and dictionaries), and the messages
    of the exceptions it raises. *)
Record interpreter : Type := Interpreter {
  repr : json -> str;
  decode_error_text : str -> str;
  attribute_error_text : json -> str -> str;
  not_container_text : json -> str
}.

Section Program.

Variable py : interpreter.

(** [f"{v}"]: [str(v)], which is [v] itself for a string and [repr(v)]
    for the other decoded values. *)
Definition format (v : json) : str :=
  match v with
  | JStr s => s
  | _ => repr py v
  end.

(** [json.loads(s)] *)
Definition json_loads (s : str) : M json :=
  do_call (JsonLoads s) ;;
  match loads s with
  | Some v => ret v
  | None => raise (Exn JSONDecodeError (decode_error_text py s))
  end.

(** [obj.get(key, default)]: only a [dict] has the method. *)
Definition get (obj : json) (key : str) (default : json) : M json :=
  match obj with
  | JDict d =>
      ret (match dict_lookup d key with
           | Some v => v
           | None => default
           end)
  | _ => raise (Exn AttributeError (attribute_error_text py obj (lit "get")))
  end.

(** [sub in container] for a string [sub]: substring of a string,
    member of a list, key of a dictionary; the other decoded values
    are no containers. *)
Definition str_in (sub : str) (container : json) : M bool :=
  match container with
  | JStr s => ret (contains sub s)
  | JList items =>
      ret (existsb (fun v => match v with
                             | JStr s => Str.eqb sub s
                             | _ => false
                             end) items)
  | JDict d =>
      ret (match dict_lookup d sub with Some _ => true | None => false end)
  | _ => raise (Exn TypeError (not_container_text py container))
  end.

(** *** The texts of the source *)

Definition banner_subscribing (camera_ip : str) : str :=
  0x1F517%N :: lit " Subscribing to VideoAnalytics events on " ++ camera_ip.
Definition banner_listening : str :=
  0x1F3AF%N :: lit " Listening for events... (Press Ctrl+C to stop)".
Definition rule_equals : str := times (lit "=") 60.
Definition rule_dashes : str := times (lit "-") 60.

(** [f"<envelope emoji> {line}"] *)
Definition echo (line : str) : str := 0x1F4E8%N :: lit " " ++ line.

Definition detection_title : str :=
  0x1F3AF%N :: lit " OBJECT DETECTION EVENT!".
Definition time_line (timestamp : json) : str :=
  lit "   " ++ 0x23F0%N :: lit " Time: " ++ format timestamp.
Definition topic_line (topic : json) : str :=
  lit "   " ++ 0x1F4C2%N :: lit " Topic: " ++ format topic.
Definition class_line (v : json) : str :=
  lit "   " ++ 0x1F3F7%N :: 0xFE0F%N :: lit "  Class: " ++ format v.
Definition confidence_line (v : json) : str :=
  lit "   " ++ 0x1F4CA%N :: lit " Confidence: " ++ format v.
Definition bbox_line (v : json) : str :=
  lit "   " ++ 0x1F4D0%N :: lit " BBox: " ++ format v.

Definition stop_message : str :=
  10%N :: 0x1F6D1%N :: lit " Stopped by user".
Definition error_message (e : exn) : str :=
  0x274C%N :: lit " Error: " ++ exn_str e.

Definition NA : json := JStr (lit "N/A").
Definition Unknown : json := JStr (lit "Unknown").

(** *** The function *)

(** The seven [print] calls of a detection, with the three lookups in
    [data] interleaved as the source evaluates them. *)
Definition print_detection (timestamp topic data : json) : M unit :=
  print detection_title ;;
  print (time_line timestamp) ;;
  print (topic_line topic) ;;
  object_class <- get data (lit "ObjectClass") NA ;;
  print (class_line object_class) ;;
  confidence <- get data (lit "Confidence") NA ;;
  print (confidence_line confidence) ;;
  bounding_box <- get data (lit "BoundingBox") NA ;;
  print (bbox_line bounding_box) ;;
  print rule_dashes.

(** The body of the inner [try], for a line that starts with [data:]. *)
Definition decode_event (line : str) : M unit :=
  let json_str := strip (slice_from 5 line) in
  if truthy json_str then
    event_data <- json_loads json_str ;;
    topic <- get event_data (lit "topic") Unknown ;;
    data <- get event_data (lit "data") (JDict []) ;;
    timestamp <- get event_data (lit "@timestamp") Unknown ;;
    has_va <- str_in (lit "VideoAnalytics") topic ;;
    is_detection <-
      (if has_va : bool then str_in (lit "ObjectDetected") topic
       else ret false) ;;
    if is_detection : bool then print_detection timestamp topic data
    else ret tt
  else ret tt.

(** The part of the inner [try] that follows [json.loads], as a
    function of the decoded value: [decode_event] is [json_loads]
    followed by it. *)
Definition after_loads (event_data : json) : M unit :=
  topic <- get event_data (lit "topic") Unknown ;;
  data <- get event_data (lit "data") (JDict []) ;;
  timestamp <- get event_data (lit "@timestamp") Unknown ;;
  has_va <- str_in (lit "VideoAnalytics") topic ;;
  is_detection <-
    (if has_va : bool then str_in (lit "ObjectDetected") topic
     else ret false) ;;
  if is_detection : bool then print_detection timestamp topic data
  else ret tt.

(** [except json.JSONDecodeError: pass] *)
Definition skip_decode_error (e : exn) : option (M unit) :=
  if is_JSONDecodeError e then Some (ret tt) else None.

(** The body of the [for] loop. *)
Definition loop_body (line : str) : M unit :=
  if truthy line then
    print (echo line) ;;
    if startswith (lit "data:") line
    then try_except (decode_event line) skip_decode_error
    else ret tt
  else ret tt.

(** [for line in response.iter_lines(...)] *)
Fixpoint for_each_line (lines : stream) : M unit :=
  match lines with
  | Eof => ret tt
  | Fails e => raise e
  | Line line rest => loop_body line ;; for_each_line rest
  end.

Definition requests_get (cam : camera) (r : request) : M response :=
  do_call (RequestsGet r) ;;
  match cam with
  | Unreachable e => raise e
  | Responds resp => ret resp
  end.

Definition raise_for_status (resp : response) : M unit :=
  do_call RaiseForStatus ;;
  match status_error resp with
  | Some e => raise e
  | None => ret tt
  end.

Definition iter_lines (resp : response) (decode_unicode : bool) : M stream :=
  do_call (IterLines decode_unicode) ;;
  ret (body resp).

(** The request the function sends. *)
Definition subscription (camera_ip username password : str) : request :=
  {| req_url := lit "http://" ++ camera_ip ++ lit "/axis-cgi/event.cgi";
     req_params := [(lit "action", lit "subscribe");
                    (lit "events", lit "tns1:VideoAnalytics/*")];
     req_auth := HTTPDigestAuth username password;
     req_stream := true;
     req_timeout := 60 |}.

(** The two [except] clauses of the outer [try], in order. *)
Definition report (e : exn) : option (M unit) :=
  if is_KeyboardInterrupt e then Some (print stop_message)
  else if is_Exception e then Some (print (error_message e))
  else None.

(** The body of the outer [try]. *)
Definition listen (camera_ip username password : str) (cam : camera)
  : M unit :=
  response <- requests_get cam (subscription camera_ip username password) ;;
  raise_for_status response ;;
  lines <- iter_lines response true ;;
  for_each_line lines.

(** A parameter with a default value: [None] when the caller omits it. *)
Definition or_default (given : option str) (default : str) : str :=
  match given with
  | Some v => v
  | None => default
  end.

(** [subscribe_to_events(camera_ip, username="root", password="pass")]
    run against a camera. *)
Definition subscribe_to_events
    (camera_ip : str) (username password : option str) (cam : camera)
  : M unit :=
  let username := or_default username (lit "root") in
  let password := or_default password (lit "pass") in
  print (banner_subscribing camera_ip) ;;
  print banner_listening ;;
  print rule_equals ;;
  try_except (listen camera_ip username password cam) report.

(** The script: the camera address is a literal, the credentials are
    the defaults. *)
Definition main (cam : camera) : M unit :=
  subscribe_to_events (lit "169.254.118.229") None None cam.

End Program.

(** *** The event envelope of the specification *)

(** An event envelope: a JSON object whose [topic], when present, is a
    string and whose [data], when present, is a mapping.  Absent fields
    take the placeholders of the source. *)
Record envelope : Type := Envelope {
  env_topic : str;
  env_data : list (str * json);
  env_timestamp : json
}.

Definition field (d : list (str * json)) (key : str) (placeholder : json)
  : json :=
  match dict_lookup d key with
  | Some v => v
  | None => placeholder
  end.

Definition read_envelope (v : json) : option envelope :=
  match v with
  | JDict d =>
      match field d (lit "topic") (JStr (lit "Unknown")),
            field d (lit "data") (JDict []) with
      | JStr topic, JDict data =>
          Some {| env_topic := topic;
                  env_data := data;
                  env_timestamp :=
                    field d (lit "@timestamp") (JStr (lit "Unknown")) |}
      | _, _ => None
      end
  | _ => None
  end.

(** The value shown for a key of [data]: the text [N/A] when absent. *)
Definition shown_or_NA (py : interpreter) (data : list (str * json))
    (key : str) : str :=
  match dict_lookup data key with
  | Some v => format py v
  | None => lit "N/A"
  end.

(** The detection block of an envelope, line by line. *)
Definition detection_block (py : interpreter) (e : envelope) : list str :=
  [ 0x1F3AF%N :: lit " OBJECT DETECTION EVENT!";
    lit "   " ++ 0x23F0%N :: lit " Time: " ++ format py (env_timestamp e);
    lit "   " ++ 0x1F4C2%N :: lit " Topic: " ++ env_topic e;
    lit "   " ++ 0x1F3F7%N :: 0xFE0F%N :: lit "  Class: "
        ++ shown_or_NA py (env_data e) (lit "ObjectClass");
    lit "   " ++ 0x1F4CA%N :: lit " Confidence: "
        ++ shown_or_NA py (env_data e) (lit "Confidence");
    lit "   " ++ 0x1F4D0%N :: lit " BBox: "
        ++ shown_or_NA py (env_data e) (lit "BoundingBox");
    times (lit "-") 60 ].

(** *** Concrete inputs *)

(** An interpreter to run the embedding on concrete inputs: it renders
    every non-string value and every message of its own as the empty
    text.  The properties below are proved for every interpreter. *)
Definition mute : interpreter :=
  {| repr := fun _ => [];
     decode_error_text := fun _ => [];
     attribute_error_text := fun _ _ => [];
     not_container_text := fun _ => [] |}.

(** The example line of the specification. *)
Definition example_line : str :=
  lit "data: {" ++ quoted (lit "topic") ++ lit ":"
    ++ quoted (lit "tns1:VideoAnalytics/ObjectDetected") ++ lit ","
    ++ quoted (lit "data") ++ lit ":{"
    ++ quoted (lit "ObjectClass") ++ lit ":" ++ quoted (lit "person") ++ lit ","
    ++ quoted (lit "Confidence") ++ lit ":" ++ quoted (lit "87") ++ lit "},"
    ++ quoted (lit "@timestamp") ++ lit ":" ++ quoted (lit "12:00:00")
    ++ lit "}".

(** The value its payload decodes to, and the envelope read from it. *)
Definition example_value : json :=
  JDict [ (lit "topic", JStr (lit "tns1:VideoAnalytics/ObjectDetected"));
          (lit "data", JDict [ (lit "ObjectClass", JStr (lit "person"));
                               (lit "Confidence", JStr (lit "87")) ]);
          (lit "@timestamp", JStr (lit "12:00:00")) ].

Definition example_envelope : envelope :=
  {| env_topic := lit "tns1:VideoAnalytics/ObjectDetected";
     env_data := [ (lit "ObjectClass", JStr (lit "person"));
                   (lit "Confidence", JStr (lit "87")) ];
     env_timestamp := JStr (lit "12:00:00") |}.

(** A [data:] line whose payload is not JSON. *)
Definition malformed_line : str := lit "data: {oops".

(** A [data:] line whose payload is valid JSON but no object. *)
Definition number_line : str := lit "data: 42".

(** A [data:] line whose topic matches and whose [data] is a number. *)
Definition bad_data_line : str :=
  lit "data: {" ++ quoted (lit "topic") ++ lit ":"
    ++ quoted (lit "tns1:VideoAnalytics/ObjectDetected") ++ lit ","
    ++ quoted (lit "data") ++ lit ":7}".

(** More [data:] lines: a topic that is a list, an object, [null]; a
    topic that does not match, with [data] a number; no topic at all; a
    matching topic and nothing else. *)
Definition list_topic_line : str :=
  lit "data: {" ++ quoted (lit "topic") ++ lit ":["
    ++ quoted (lit "VideoAnalytics") ++ lit ","
    ++ quoted (lit "ObjectDetected") ++ lit "]}".

Definition dict_topic_line : str :=
  lit "data: {" ++ quoted (lit "topic") ++ lit ":{"
    ++ quoted (lit "VideoAnalytics") ++ lit ":1,"
    ++ quoted (lit "ObjectDetected") ++ lit ":2}}".

Definition null_topic_line : str :=
  lit "data: {" ++ quoted (lit "topic") ++ lit ":null}".

Definition other_topic_line : str :=
  lit "data: {" ++ quoted (lit "topic") ++ lit ":"
    ++ quoted (lit "tns1:Device/Trigger") ++ lit ","
    ++ quoted (lit "data") ++ lit ":7}".

Definition no_topic_line : str :=
  lit "data: {" ++ quoted (lit "data") ++ lit ":7}".

Definition bare_detection_line : str :=
  lit "data: {" ++ quoted (lit "topic") ++ lit ":"
    ++ quoted (lit "tns1:VideoAnalytics/ObjectDetected") ++ lit "}".

Definition reversed_topic_line : str :=
  lit "data: {" ++ quoted (lit "topic") ++ lit ":"
    ++ quoted (lit "ObjectDetected/VideoAnalytics") ++ lit "}".

(** *** Vocabulary for whole runs *)

(** A body that delivers the lines of [ls] and goes on as [rest]. *)
Definition serve (ls : list str) (rest : stream) : stream :=
  fold_right Line rest ls.

(** The three [print] calls that precede the outer [try]. *)
Definition opening (camera_ip : str) : list call :=
  [ Print (banner_subscribing camera_ip); Print banner_listening;
    Print rule_equals ].



Definition is_loads (c : call) : bool :=
  match c with
  | JsonLoads _ => true
  | _ => false
  end.

(** The seven texts of a detection for any topic value and a [data]
    mapping. *)
Definition block_lines (py : interpreter) (timestamp topic : json)
    (data : list (str * json)) : list str :=
  [ detection_title;
    time_line py timestamp;
    topic_line py topic;
    lit "   " ++ 0x1F3F7%N :: 0xFE0F%N :: lit "  Class: "
        ++ shown_or_NA py data (lit "ObjectClass");
    lit "   " ++ 0x1F4CA%N :: lit " Confidence: "
        ++ shown_or_NA py data (lit "Confidence");
    lit "   " ++ 0x1F4D0%N :: lit " BBox: "
        ++ shown_or_NA py data (lit "BoundingBox");
    rule_dashes ].

(** The decoded values on which the [in] operator raises [TypeError]. *)
Definition not_container (v : json) : bool :=
  match v with
  | JNone | JBool _ | JInt _ | JFloat _ => true
  | JStr _ | JList _ | JDict _ => false
  end.

Definition is_dict (v : json) : bool :=
  match v with
  | JDict _ => true
  | _ => false
  end.

(** A computation that never raises [JSONDecodeError]. *)
Definition never_decode_error (A : Type) (m : M A) : Prop :=
  forall e, outcome m = Raises e -> is_JSONDecodeError e = false.

End Subscribe.

(* ================================================================== *)
(** ** [json.loads] under the limits of the interpreter *)
(* ================================================================== *)

Module Runtime.

(** The interpreter refuses two things that the grammar of JSON allows.
    - An integer literal with more digits than
      [sys.get_int_max_str_digits()] (4300 unless changed): the
      conversion to [int] raises [ValueError].
    - Containers nested deeper than the recursion limit leaves room for:
      entering the object or the array raises [RecursionError].
    Neither exception is a [JSONDecodeError].  [None] stands for no
    limit; [max_nesting] counts the containers that may be open at once. *)
Record limits : Type := Limits {
  max_str_digits : option nat;
  max_nesting : option nat
}.


Definition exceeds (limit : option nat) (n : nat) : bool :=
  match limit with
  | Some m => m <? n
  | None => false
  end.

Inductive refusal : Type :=
| TooManyDigits
| TooDeep.

(** Outcome of a scanning function: as [Json.scan], with the refusals. *)
Inductive scan (A : Type) : Type :=
| Scanned (a : A) (rest : str)
| Invalid
| Refused (why : refusal)
| Exhausted.
Arguments Invalid {A}.
Arguments Refused {A} why.
Arguments Exhausted {A}.

(** The number of digits of the integer literal at the head of [s]. *)
Definition integer_digits (s : str) : nat :=
  match match_integer s with
  | Some (_, ds, _) => List.length ds
  | None => 0
  end.

Section Limited.

Variable lim : limits.

(** The literal cases of [scan_once]; an integer literal is converted
    with [int()], which checks the number of its digits. *)
Definition scan_atom (s : str) : scan json :=
  match Json.scan_atom s with
  | Some (JInt z, rest) =>
      if exceeds (max_str_digits lim) (integer_digits s)
      then Refused TooManyDigits
      else Scanned (JInt z) rest
  | Some (v, rest) => Scanned v rest
  | None => Invalid
  end.

(** [scan_once] with the loops of [JSONObject] and [JSONArray], as in
    [Json], where [depth] is the number of containers already open:
    the scanner enters the recursion guard before it reads anything of
    an object or an array. *)
Fixpoint scan_once (fuel depth : nat) (s : str) : scan json :=
  match fuel with
  | O => Exhausted
  | S fuel' =>
      match s with
      | [] => Invalid
      | c :: t =>
          if (c =? 34)%N then
            match scanstring t with
            | Some (content, rest) => Scanned (JStr content) rest
            | None => Invalid
            end
          else if (c =? 123)%N then
            if exceeds (max_nesting lim) (S depth) then Refused TooDeep
            else
              match skip_ws t with
              | c1 :: t1 =>
                  if (c1 =? 125)%N then Scanned (JDict []) t1
                  else if (c1 =? 34)%N
                       then object_members fuel' (S depth) [] t1
                       else Invalid
              | [] => Invalid
              end
          else if (c =? 91)%N then
            if exceeds (max_nesting lim) (S depth) then Refused TooDeep
            else
              match skip_ws t with
              | c1 :: t1 =>
                  if (c1 =? 93)%N then Scanned (JList []) t1
                  else array_items fuel' (S depth) [] (c1 :: t1)
              | [] => Invalid
              end
          else scan_atom s
      end
  end

with object_members (fuel depth : nat) (pairs : list (str * json)) (s : str)
  : scan json :=
  match fuel with
  | O => Exhausted
  | S fuel' =>
      match scanstring s with
      | None => Invalid
      | Some (key, s1) =>
          match skip_ws s1 with
          | colon :: s2 =>
              if (colon =? 58)%N then
                match scan_once fuel' depth (skip_ws s2) with
                | Scanned value s3 =>
                    let pairs' := pairs ++ [(key, value)] in
                    match skip_ws s3 with
                    | c :: s4 =>
                        if (c =? 125)%N
                        then Scanned (JDict (dict_of_pairs pairs')) s4
                        else if (c =? 44)%N then
                          match skip_ws s4 with
                          | q :: s5 =>
                              if (q =? 34)%N
                              then object_members fuel' depth pairs' s5
                              else Invalid
                          | [] => Invalid
                          end
                        else Invalid
                    | [] => Invalid
                    end
                | Invalid => Invalid
                | Refused why => Refused why
                | Exhausted => Exhausted
                end
              else Invalid
          | [] => Invalid
          end
      end
  end

with array_items (fuel depth : nat) (values : list json) (s : str)
  : scan json :=
  match fuel with
  | O => Exhausted
  | S fuel' =>
      match scan_once fuel' depth s with
      | Scanned value s1 =>
          let values' := values ++ [value] in
          match skip_ws s1 with
          | c :: s2 =>
              if (c =? 93)%N then Scanned (JList values') s2
              else if (c =? 44)%N
                   then array_items fuel' depth values' (skip_ws s2)
                   else Invalid
          | [] => Invalid
          end
      | Invalid => Invalid
      | Refused why => Refused why
      | Exhausted => Exhausted
      end
  end.

(** What [json.loads(s)] does: it returns a value, raises
    [JSONDecodeError], or raises the exception of a refusal. *)
Inductive decoded : Type :=
| Value (v : json)
| Malformed
| Refusal (why : refusal).

Definition loads (s : str) : decoded :=
  if startswith [0xFEFF%N] s then Malformed
  else
    match scan_once (fuel_for s) 0 (skip_ws s) with
    | Scanned v rest =>
        match skip_ws rest with
        | [] => Value v
        | _ :: _ => Malformed
        end
    | Invalid => Malformed
    | Refused why => Refusal why
    | Exhausted => Malformed
    end.

End Limited.

(** A scan of [Json] seen as a scan with limits. *)
Definition of_plain (A : Type) (r : Json.scan A) : scan A :=
  match r with
  | Json.Scanned a rest => Scanned a rest
  | Json.Invalid => Invalid
  | Json.Exhausted => Exhausted
  end.

End Runtime.

(* ================================================================== *)
(** ** The subscriber in any environment *)
(* ================================================================== *)

(** [Subscribe] describes the function where nothing around it
    misbehaves: every line arrives as text, the console takes every
    text, and the interpreter sets no limit.  [Session] drops these
    assumptions.
    - A line arrives as text when the response declares an encoding and
      as bytes when it does not: this is what
      [iter_lines(decode_unicode=True)] yields.
    - [print] can fail: the console may refuse a text it cannot encode
      ([UnicodeEncodeError]), the user may interrupt it, the pipe may be
      closed.  What the console does may depend on everything that
      happened before.
    - [json.loads] also raises [ValueError] and [RecursionError], see
      [Runtime].
    - An exception raised by the camera can be of any class, also one
      that derives from [BaseException] only.
    - An interrupt from the keyboard is taken where the function waits:
      for the camera, or in [print].
    The calls, the request and the texts are those of [Subscribe]. *)

Module Session.

Import Subscribe.

(** *** Exceptions *)

(** [OtherBaseException] stands for the classes that derive from
    [BaseException] only ([SystemExit], [GeneratorExit]);
    [OtherException] for any other subclass of [Exception]. *)
Inductive exn_class : Type :=
| KeyboardInterrupt
| OtherBaseException
| JSONDecodeError
| ValueError
| RecursionError
| AttributeError
| TypeError
| UnicodeEncodeError
| OtherException.

Record exn : Type := Exn { exn_class_of : exn_class; exn_str : str }.

(** [isinstance(e, Exception)] *)
Definition is_Exception (e : exn) : bool :=
  match exn_class_of e with
  | KeyboardInterrupt | OtherBaseException => false
  | _ => true
  end.

Definition is_KeyboardInterrupt (e : exn) : bool :=
  match exn_class_of e with
  | KeyboardInterrupt => true
  | _ => false
  end.

(** [isinstance(e, json.JSONDecodeError)]: a plain [ValueError] is not
    one. *)
Definition is_JSONDecodeError (e : exn) : bool :=
  match exn_class_of e with
  | JSONDecodeError => true
  | _ => false
  end.

(** *** The camera *)

(** What the loop variable holds: a [str], or a [bytes] object. *)
Inductive received : Type :=
| Text (s : str)
| Bytes (b : list ascii).

Inductive stream : Type :=
| Eof
| Fails (e : exn)
| Line (l : received) (rest : stream).

Record response : Type := Response {
  status_error : option exn;
  body : stream
}.

Inductive camera : Type :=
| Unreachable (e : exn)
| Responds (r : response).

(** *** The console and the interpreter *)

(** Why a [print] statement fails: the text cannot be encoded, the user
    interrupts, or anything else goes wrong ([Broken]: a closed pipe, or
    the rendering of the text itself failing). *)
Inductive console_error : Type :=
| Unencodable
| Interrupted
| Broken.

Definition console_error_class (why : console_error) : exn_class :=
  match why with
  | Unencodable => UnicodeEncodeError
  | Interrupted => KeyboardInterrupt
  | Broken => OtherException
  end.

(** What a [print] does: it writes the text and returns; it raises
    without writing; or it raises once the text is written. *)
Inductive print_outcome : Type :=
| Written
| Refused (why : console_error)
| WrittenThen (why : console_error).

(** The environment of a run besides the camera.  [console history text]
    is what printing [text] does after the calls of [history]. *)
Record world : Type := World {
  runtime : interpreter;
  limits : Runtime.limits;
  console : list call -> str -> print_outcome;
  console_error_text : console_error -> str -> str;
  digits_error_text : str -> str;
  recursion_error_text : str -> str;
  startswith_error_text : str
}.

(** The console takes [text] whenever it is printed. *)
Definition accepts (w : world) (text : str) : Prop :=
  forall history, console w history text = Written.

(** *** Computations *)

Inductive result (A : Type) : Type :=
| Returns (a : A)
| Raises (e : exn).
Arguments Raises {A}.

(** A computation: given the calls made so far, the calls it makes and
    how it ends. *)
Definition M (A : Type) : Type := list call -> list call * result A.

Definition ret (A : Type) (a : A) : M A := fun _ => ([], Returns a).

Definition raise (A : Type) (e : exn) : M A := fun _ => ([], Raises e).
Arguments raise {A} e.

Definition bind (A B : Type) (m : M A) (k : A -> M B) : M B :=
  fun history =>
    match m history with
    | (t, Returns a) => let (t', r) := k a (history ++ t) in (t ++ t', r)
    | (t, Raises e) => (t, Raises e)
    end.

Definition do_call (c : call) : M unit := fun _ => ([c], Returns tt).

Definition try_except (A : Type) (m : M A) (handler : exn -> option (M A))
  : M A :=
  fun history =>
    match m history with
    | (t, Raises e) =>
        match handler e with
        | Some h => let (t', r) := h (history ++ t) in (t ++ t', r)
        | None => (t, Raises e)
        end
    | (t, Returns a) => (t, Returns a)
    end.

Definition calls (A : Type) (m : M A) (history : list call) : list call :=
  fst (m history).
Definition outcome (A : Type) (m : M A) (history : list call) : result A :=
  snd (m history).

Declare Scope session_scope.
Delimit Scope session_scope with session.
Notation "x <- m ;; k" := (bind m (fun x => k))
  (at level 61, m at next level, right associativity) : session_scope.
Notation "m ;; k" := (bind m (fun _ => k))
  (at level 61, right associativity) : session_scope.
Local Open Scope session_scope.

(** *** [repr] of a [bytes] object *)

Definition hex_digit (n : N) : N :=
  (if n <? 10 then 48 + n else 87 + n)%N.

Definition byte_repr (quote c : N) : str :=
  (if (c =? quote) || (c =? 92) then [92; c]
   else if c =? 9 then [92; 116]
   else if c =? 10 then [92; 110]
   else if c =? 13 then [92; 114]
   else if (c <? 32) || (127 <=? c)
        then [92; 120; hex_digit (c / 16); hex_digit (c mod 16)]
        else [c])%N.

(** The letter b, a quote, the bytes with their escapes, the quote; the
    quote is double when the bytes hold a single quote and no double
    one. *)
Definition bytes_repr (b : list ascii) : str :=
  let cs := map N_of_ascii b in
  let quote :=
    if existsb (N.eqb 39) cs && negb (existsb (N.eqb 34) cs)
    then 34%N else 39%N in
  98%N :: quote :: flat_map (byte_repr quote) cs ++ [quote].

Section Program.

Variable w : world.

Definition failure (why : console_error) (text : str) : exn :=
  Exn (console_error_class why) (console_error_text w why text).

(** [print(text)] *)
Definition print (text : str) : M unit :=
  fun history =>
    match console w history text with
    | Written => ([Print text], Returns tt)
    | Refused why => ([], Raises (failure why text))
    | WrittenThen why => ([Print text], Raises (failure why text))
    end.

(** [json.loads(s)] *)
Definition json_loads (s : str) : M json :=
  do_call (JsonLoads s) ;;
  match Runtime.loads (limits w) s with
  | Runtime.Value v => ret v
  | Runtime.Malformed =>
      raise (Exn JSONDecodeError (decode_error_text (runtime w) s))
  | Runtime.Refusal Runtime.TooManyDigits =>
      raise (Exn ValueError (digits_error_text w s))
  | Runtime.Refusal Runtime.TooDeep =>
      raise (Exn RecursionError (recursion_error_text w s))
  end.

(** [obj.get(key, default)] *)
Definition get (obj : json) (key : str) (default : json) : M json :=
  match obj with
  | JDict d =>
      ret (match dict_lookup d key with
           | Some v => v
           | None => default
           end)
  | _ => raise (Exn AttributeError
                  (attribute_error_text (runtime w) obj (lit "get")))
  end.

(** [sub in container] *)
Definition str_in (sub : str) (container : json) : M bool :=
  match container with
  | JStr s => ret (contains sub s)
  | JList items =>
      ret (existsb (fun v => match v with
                             | JStr s => Str.eqb sub s
                             | _ => false
                             end) items)
  | JDict d =>
      ret (match dict_lookup d sub with Some _ => true | None => false end)
  | _ => raise (Exn TypeError (not_container_text (runtime w) container))
  end.

Definition error_message (e : exn) : str :=
  0x274C%N :: lit " Error: " ++ exn_str e.

Definition print_detection (timestamp topic data : json) : M unit :=
  print detection_title ;;
  print (time_line (runtime w) timestamp) ;;
  print (topic_line (runtime w) topic) ;;
  object_class <- get data (lit "ObjectClass") NA ;;
  print (class_line (runtime w) object_class) ;;
  confidence <- get data (lit "Confidence") NA ;;
  print (confidence_line (runtime w) confidence) ;;
  bounding_box <- get data (lit "BoundingBox") NA ;;
  print (bbox_line (runtime w) bounding_box) ;;
  print rule_dashes.

(** The part of the inner [try] that follows [json.loads]. *)
Definition after_loads (event_data : json) : M unit :=
  topic <- get event_data (lit "topic") Unknown ;;
  data <- get event_data (lit "data") (JDict []) ;;
  timestamp <- get event_data (lit "@timestamp") Unknown ;;
  has_va <- str_in (lit "VideoAnalytics") topic ;;
  is_detection <-
    (if has_va : bool then str_in (lit "ObjectDetected") topic
     else ret false) ;;
  if is_detection : bool then print_detection timestamp topic data
  else ret tt.

(** The body of the inner [try], for a text line that starts with
    [data:]. *)
Definition decode_event (line : str) : M unit :=
  let json_str := strip (slice_from 5 line) in
  if truthy json_str then
    event_data <- json_loads json_str ;;
    after_loads event_data
  else ret tt.

(** [except json.JSONDecodeError: pass] *)
Definition skip_decode_error (e : exn) : option (M unit) :=
  if is_JSONDecodeError e then Some (ret tt) else None.

(** The body of the [for] loop.  A [bytes] line is true when it is not
    empty; its echo shows its [repr]; [startswith] with a [str] argument
    then raises [TypeError]. *)
Definition loop_body (line : received) : M unit :=
  match line with
  | Text s =>
      if truthy s then
        print (echo s) ;;
        if startswith (lit "data:") s
        then try_except (decode_event s) skip_decode_error
        else ret tt
      else ret tt
  | Bytes b =>
      match b with
      | [] => ret tt
      | _ :: _ =>
          print (echo (bytes_repr b)) ;;
          raise (Exn TypeError (startswith_error_text w))
      end
  end.

Fixpoint for_each_line (lines : stream) : M unit :=
  match lines with
  | Eof => ret tt
  | Fails e => raise e
  | Line line rest => loop_body line ;; for_each_line rest
  end.

Definition requests_get (cam : camera) (r : request) : M response :=
  do_call (RequestsGet r) ;;
  match cam with
  | Unreachable e => raise e
  | Responds resp => ret resp
  end.

Definition raise_for_status (resp : response) : M unit :=
  do_call RaiseForStatus ;;
  match status_error resp with
  | Some e => raise e
  | None => ret tt
  end.

Definition iter_lines (resp : response) (decode_unicode : bool) : M stream :=
  do_call (IterLines decode_unicode) ;;
  ret (body resp).

(** The body of the outer [try]. *)
Definition listen (camera_ip username password : str) (cam : camera)
  : M unit :=
  response <- requests_get cam (subscription camera_ip username password) ;;
  raise_for_status response ;;
  lines <- iter_lines response true ;;
  for_each_line lines.

(** The two [except] clauses of the outer [try], in order. *)
Definition report (e : exn) : option (M unit) :=
  if is_KeyboardInterrupt e then Some (print stop_message)
  else if is_Exception e then Some (print (error_message e))
  else None.

Definition subscribe_to_events
    (camera_ip : str) (username password : option str) (cam : camera)
  : M unit :=
  let username := or_default username (lit "root") in
  let password := or_default password (lit "pass") in
  print (banner_subscribing camera_ip) ;;
  print banner_listening ;;
  print rule_equals ;;
  try_except (listen camera_ip username password cam) report.

Definition main (cam : camera) : M unit :=
  subscribe_to_events (lit "169.254.118.229") None None cam.

End Program.



(** The verdict of [sub in container], for the containers on which the
    operator does not raise. *)
Definition membership (sub : str) (container : json) : option bool :=
  match container with
  | JStr s => Some (contains sub s)
  | JList items =>
      Some (existsb (fun v => match v with
                              | JStr s => Str.eqb sub s
                              | _ => false
                              end) items)
  | JDict d =>
      Some (match dict_lookup d sub with Some _ => true | None => false end)
  | _ => None
  end.


(** A body that delivers the text lines of [ls] and goes on as [rest]. *)
Definition text_lines (ls : list str) (rest : stream) : stream :=
  fold_right (fun l => Line (Text l)) rest ls.

(** The calls of the body of the [try] that precede the loop. *)
Definition connecting (camera_ip : str) (username password : option str)
  : list call :=
  [ RequestsGet (subscription camera_ip (or_default username (lit "root"))
                   (or_default password (lit "pass")));
    RaiseForStatus; IterLines true ].

(** A computation that makes [print] calls only, and one that never
    raises [JSONDecodeError], whatever happened before. *)
Definition quiet (A : Type) (m : M A) : Prop :=
  forall history, forallb is_print (calls m history) = true.

Definition never_decode_error (A : Type) (m : M A) : Prop :=
  forall history e,
    outcome m history = Raises e -> is_JSONDecodeError e = false.

(** *** Stripping, stated on its own *)



(** *** Concrete environments and inputs *)

Definition is_surrogate (c : N) : bool :=
  ((0xD800 <=? c) && (c <=? 0xDFFF))%N.

(** A console that encodes as UTF-8 and refuses a lone surrogate. *)
Definition utf8_console (history : list call) (text : str) : print_outcome :=
  if existsb is_surrogate text then Refused Unencodable else Written.

(** A console that encodes as ASCII. *)
Definition ascii_console (history : list call) (text : str) : print_outcome :=
  if existsb (fun c => 128 <=? c)%N text then Refused Unencodable else Written.

(** An interpreter with the default limit of 4300 digits, on a UTF-8
    console and on an ASCII console; the texts of the interpreter are
    left empty. *)
Definition utf8_world : world :=
  {| runtime := mute;
     limits := {| Runtime.max_str_digits := Some 4300;
                  Runtime.max_nesting := None |};
     console := utf8_console;
     console_error_text := fun _ _ => [];
     digits_error_text := fun _ => [];
     recursion_error_text := fun _ => [];
     startswith_error_text := [] |}.

Definition ascii_world : world :=
  {| runtime := mute;
     limits := {| Runtime.max_str_digits := Some 4300;
                  Runtime.max_nesting := None |};
     console := ascii_console;
     console_error_text := fun _ _ => [];
     digits_error_text := fun _ => [];
     recursion_error_text := fun _ => [];
     startswith_error_text := [] |}.

(** [m] prints the first so many of [texts], in order; it returns only
    when it has printed them all, and it raises only what [print] raises
    on one of them. *)
Definition prints_in_order (w : world) (texts : list str) (m : M unit)
  : Prop :=
  forall history,
    exists n,
      calls m history = map Print (firstn n texts)
      /\ (outcome m history = Returns tt -> n = List.length texts)
      /\ (forall e, outcome m history = Raises e ->
            exists why text,
              In text texts
              /\ e = Exn (console_error_class why)
                       (console_error_text w why text)).

(** *** The ideal environment *)









(** A [data:] line whose payload is an integer of 4301 digits. *)
Definition big_integer_line : str :=
  lit "data: " ++ repeat 49%N 4301.

(** A [data:] line whose topic matches and ends with the escape of a
    lone surrogate. *)
Definition surrogate_topic_line : str :=
  lit "data: {" ++ quoted (lit "topic") ++ lit ":"
    ++ quoted (lit "tns1:VideoAnalytics/ObjectDetected\ud800") ++ lit "}".

(** The bytes of a [data:] line, as a response without a declared
    encoding delivers them. *)
Definition bytes_data_line : list ascii := list_ascii_of_string "data: 42".


End Session.

(* ================================================================== *)
(** ** Facts about strings *)
(* ================================================================== *)

Module StrFacts.

Lemma eqb_eq (a b : str) : Str.eqb a b = true <-> a = b.
Proof.
  revert b; induction a as [|x a IH]; intros [|y b]; simpl;
    try (split; [discriminate | discriminate]); try tauto.
  rewrite andb_true_iff, N.eqb_eq, IH.
  split; [intros [-> ->]; reflexivity | intros H; inversion H; auto].
Qed.

(** [startswith] decides that [s] begins with [prefix]. *)
Lemma startswith_spec (prefix s : str) :
  startswith prefix s = true <-> exists rest, s = prefix ++ rest.
Proof.
  revert s; induction prefix as [|p prefix IH]; intros s; simpl.
  - split; [intros _; exists s; reflexivity | reflexivity].
  - destruct s as [|c s].
    + split; [discriminate | intros [rest H]; discriminate].
    + rewrite andb_true_iff, N.eqb_eq, IH. split.
      * intros [-> [rest ->]]. exists rest; reflexivity.
      * intros [rest H]. inversion H; subst. split; [reflexivity | eauto].
Qed.

(** [contains] decides the substring relation. *)
Lemma contains_spec (sub s : str) :
  contains sub s = true <-> occurs_in sub s.
Proof.
  unfold occurs_in. induction s as [|c s IH].
  - simpl. rewrite orb_false_r, startswith_spec. split.
    + intros [rest H]. exists [], rest. exact H.
    + intros [before [after H]]. destruct before; simpl in H.
      * eauto.
      * discriminate.
  - cbn [contains]. rewrite orb_true_iff, startswith_spec, IH. split.
    + intros [[rest H] | [before [after H]]].
      * exists [], rest. exact H.
      * exists (c :: before), after. simpl. rewrite H. reflexivity.
    + intros [before [after H]]. destruct before as [|b before]; simpl in H.
      * left. eauto.
      * right. inversion H; subst. eauto.
Qed.

Lemma truthy_true (s : str) : truthy s = true <-> s <> [].
Proof. destruct s; simpl; split; congruence. Qed.

End StrFacts.

(* ================================================================== *)
(** ** Facts about the JSON scanner *)
(* ================================================================== *)

Module JsonFacts.

(** Case analysis on the first [match] or [if] of a hypothesis. *)
Ltac split_match H :=
  match type of H with
  | context [match ?x with _ => _ end] => destruct x eqn:?; try discriminate H
  end.

Lemma skip_ws_length (s : str) : List.length (skip_ws s) <= List.length s.
Proof.
  induction s as [|c s IH]; simpl; [lia|].
  destruct (is_ws c); simpl; lia.
Qed.

Lemma push_inv c r content rest :
  push c r = Some (content, rest) ->
  exists content', r = Some (content', rest).
Proof.
  destruct r as [[x y]|]; simpl; [|discriminate].
  intros H; inversion H; subst; eauto.
Qed.

(** [scanstring] consumes at least the closing quote. *)
Lemma scanstring_shorter (s content rest : str) :
  scanstring s = Some (content, rest) -> List.length rest < List.length s.
Proof.
  remember (List.length s) as n eqn:Hn.
  assert (Hle : List.length s <= n) by lia. rewrite Hn. clear Hn.
  revert s content rest Hle.
  induction n as [|n IH]; intros s content rest Hle H.
  - destruct s; [discriminate | simpl in Hle; lia].
  - destruct s as [|c t]; [discriminate|].
    simpl in Hle. cbn [scanstring] in H.
    repeat split_match H;
      try (inversion H; subst; simpl; lia);
      apply push_inv in H; destruct H as [content' H];
      apply IH in H; simpl in *; lia.
Qed.

Lemma span_digits_length (s ds rest : str) :
  span_digits s = (ds, rest) ->
  List.length ds + List.length rest = List.length s.
Proof.
  revert ds rest; induction s as [|c s IH]; intros ds rest H; simpl in H.
  - inversion H; reflexivity.
  - destruct (is_digit c).
    + destruct (span_digits s) as [ds' rest'] eqn:E.
      inversion H; subst. specialize (IH _ _ eq_refl). simpl; lia.
    + inversion H; subst. reflexivity.
Qed.

Lemma match_integer_shorter (s ds rest : str) (neg : bool) :
  match_integer s = Some (neg, ds, rest) ->
  List.length rest < List.length s.
Proof.
  unfold match_integer. intros H.
  destruct s as [|c t]; [discriminate|].
  destruct (c =? 45)%N.
  - destruct t as [|c' t']; [discriminate|].
    destruct (c' =? 48)%N; [inversion H; subst; simpl; lia|].
    destruct (is_digit c'); [|discriminate].
    destruct (span_digits t') as [ds' rest'] eqn:E.
    apply span_digits_length in E. inversion H; subst. simpl; lia.
  - destruct (c =? 48)%N; [inversion H; subst; simpl; lia|].
    destruct (is_digit c); [|discriminate].
    destruct (span_digits t) as [ds' rest'] eqn:E.
    apply span_digits_length in E. inversion H; subst. simpl; lia.
Qed.

Lemma match_frac_length (s frac rest : str) :
  match_frac s = (frac, rest) -> List.length rest <= List.length s.
Proof.
  unfold match_frac. intros H.
  destruct s as [|c t]; [inversion H; subst; lia|].
  destruct (c =? 46)%N; [|inversion H; subst; lia].
  destruct (span_digits t) as [ds rest'] eqn:E.
  apply span_digits_length in E.
  destruct ds; inversion H; subst; simpl in *; lia.
Qed.

Lemma match_exp_length (s exp rest : str) :
  match_exp s = (exp, rest) -> List.length rest <= List.length s.
Proof.
  unfold match_exp. intros H.
  destruct s as [|e t]; [inversion H; subst; lia|].
  destruct ((e =? 101)%N || (e =? 69)%N); [|inversion H; subst; lia].
  destruct t as [|c t'].
  - simpl in H. inversion H; subst; simpl; lia.
  - destruct ((c =? 45)%N || (c =? 43)%N).
    + destruct (span_digits t') as [ds rest'] eqn:E.
      apply span_digits_length in E.
      destruct ds; inversion H; subst; simpl in *; lia.
    + destruct (span_digits (c :: t')) as [ds rest'] eqn:E.
      apply span_digits_length in E.
      destruct ds; inversion H; subst; simpl in *; lia.
Qed.

Lemma match_number_shorter (s rest : str) (v : json) :
  match_number s = Some (v, rest) -> List.length rest < List.length s.
Proof.
  unfold match_number. intros H.
  destruct (match_integer s) as [[[neg ds] s1]|] eqn:Ei; [|discriminate].
  apply match_integer_shorter in Ei.
  destruct (match_frac s1) as [frac s2] eqn:Ef. apply match_frac_length in Ef.
  destruct (match_exp s2) as [exp s3] eqn:Ee. apply match_exp_length in Ee.
  destruct frac, exp; inversion H; subst; lia.
Qed.

Lemma startswith_length (prefix s : str) :
  startswith prefix s = true -> List.length prefix <= List.length s.
Proof.
  intros H. apply StrFacts.startswith_spec in H. destruct H as [rest ->].
  rewrite length_app. lia.
Qed.

Lemma scan_atom_shorter (s rest : str) (v : json) :
  scan_atom s = Some (v, rest) -> List.length rest < List.length s.
Proof.
  unfold scan_atom. intros H.
  repeat match type of H with
  | context [if startswith ?p s then _ else _] =>
      let E := fresh "E" in
      destruct (startswith p s) eqn:E;
      [apply startswith_length in E; cbn in E;
       match type of H with
       | Some (_, ?r) = _ =>
           assert (Hr : rest = r) by congruence;
           rewrite Hr, length_skipn; lia
       end|]
  | context [match match_number s with _ => _ end] =>
      let E := fresh "E" in
      destruct (match_number s) as [[v' r']|] eqn:E;
      [apply match_number_shorter in E; inversion H; subst; exact E|]
  end.
  discriminate.
Qed.

(** A scanned value takes at least one character. *)
Lemma scan_shorter (fuel : nat) :
  (forall s v rest, scan_once fuel s = Scanned v rest ->
                    List.length rest < List.length s) /\
  (forall pairs s v rest, object_members fuel pairs s = Scanned v rest ->
                          List.length rest < List.length s) /\
  (forall values s v rest, array_items fuel values s = Scanned v rest ->
                           List.length rest < List.length s).
Proof.
  induction fuel as [|fuel (IHv & IHo & IHa)].
  - repeat split; intros; discriminate.
  - repeat split.
    + intros s v rest H. cbn [scan_once] in H.
      destruct s as [|c t]; [discriminate|].
      destruct (c =? 34)%N.
      { destruct (scanstring t) as [[content r]|] eqn:E; [|discriminate].
        apply scanstring_shorter in E. inversion H; subst. simpl; lia. }
      destruct (c =? 123)%N.
      { pose proof (skip_ws_length t) as Hw.
        destruct (skip_ws t) as [|c1 t1]; [discriminate|].
        destruct (c1 =? 125)%N; [inversion H; subst; simpl in *; lia|].
        destruct (c1 =? 34)%N; [|discriminate].
        apply IHo in H. simpl in *; lia. }
      destruct (c =? 91)%N.
      { pose proof (skip_ws_length t) as Hw.
        destruct (skip_ws t) as [|c1 t1]; [discriminate|].
        destruct (c1 =? 93)%N; [inversion H; subst; simpl in *; lia|].
        apply IHa in H. simpl in *; lia. }
      destruct (scan_atom (c :: t)) as [[v' r']|] eqn:E; [|discriminate].
      apply scan_atom_shorter in E. simpl in H. inversion H; subst. exact E.
    + intros pairs s v rest H. cbn [object_members] in H.
      destruct (scanstring s) as [[key s1]|] eqn:Ek; [|discriminate].
      apply scanstring_shorter in Ek.
      pose proof (skip_ws_length s1) as Hw1.
      destruct (skip_ws s1) as [|colon s2]; [discriminate|].
      destruct (colon =? 58)%N; [|discriminate].
      pose proof (skip_ws_length s2) as Hw2.
      destruct (scan_once fuel (skip_ws s2)) as [value s3| |] eqn:Ev;
        try discriminate.
      apply IHv in Ev.
      pose proof (skip_ws_length s3) as Hw3.
      destruct (skip_ws s3) as [|c s4]; [discriminate|].
      destruct (c =? 125)%N; [inversion H; subst; simpl in *; lia|].
      destruct (c =? 44)%N; [|discriminate].
      pose proof (skip_ws_length s4) as Hw4.
      destruct (skip_ws s4) as [|q s5]; [discriminate|].
      destruct (q =? 34)%N; [|discriminate].
      apply IHo in H. simpl in *; lia.
    + intros values s v rest H. cbn [array_items] in H.
      destruct (scan_once fuel s) as [value s1| |] eqn:Ev; try discriminate.
      apply IHv in Ev.
      pose proof (skip_ws_length s1) as Hw1.
      destruct (skip_ws s1) as [|c s2]; [discriminate|].
      destruct (c =? 93)%N; [inversion H; subst; simpl in *; lia|].
      destruct (c =? 44)%N; [|discriminate].
      pose proof (skip_ws_length s2) as Hw2.
      apply IHa in H. simpl in *; lia.
Qed.

(** The scanner never uses up a budget above twice the length of its
    input. *)
Lemma scan_enough_fuel (fuel : nat) :
  (forall s, 2 * List.length s < fuel -> scan_once fuel s <> Exhausted) /\
  (forall pairs s, 2 * List.length s + 1 < fuel ->
                   object_members fuel pairs s <> Exhausted) /\
  (forall values s, 2 * List.length s + 1 < fuel ->
                    array_items fuel values s <> Exhausted).
Proof.
  induction fuel as [|fuel (IHv & IHo & IHa)].
  - repeat split; intros; lia.
  - repeat split.
    + intros s Hf. cbn [scan_once].
      destruct s as [|c t]; [discriminate|]. simpl in Hf.
      destruct (c =? 34)%N.
      { destruct (scanstring t) as [[content r]|]; discriminate. }
      destruct (c =? 123)%N.
      { pose proof (skip_ws_length t) as Hw.
        destruct (skip_ws t) as [|c1 t1]; [discriminate|].
        destruct (c1 =? 125)%N; [discriminate|].
        destruct (c1 =? 34)%N; [|discriminate].
        apply IHo. simpl in Hw. lia. }
      destruct (c =? 91)%N.
      { pose proof (skip_ws_length t) as Hw.
        destruct (skip_ws t) as [|c1 t1]; [discriminate|].
        destruct (c1 =? 93)%N; [discriminate|].
        apply IHa. simpl in *. lia. }
      destruct (scan_atom (c :: t)) as [[v' r']|]; discriminate.
    + intros pairs s Hf. cbn [object_members].
      destruct (scanstring s) as [[key s1]|] eqn:Ek; [|discriminate].
      apply scanstring_shorter in Ek.
      pose proof (skip_ws_length s1) as Hw1.
      destruct (skip_ws s1) as [|colon s2]; [discriminate|].
      destruct (colon =? 58)%N; [|discriminate].
      pose proof (skip_ws_length s2) as Hw2.
      destruct (scan_once fuel (skip_ws s2)) as [value s3| |] eqn:Ev;
        try discriminate.
      * apply (proj1 (scan_shorter fuel)) in Ev.
        pose proof (skip_ws_length s3) as Hw3.
        destruct (skip_ws s3) as [|c s4]; [discriminate|].
        destruct (c =? 125)%N; [discriminate|].
        destruct (c =? 44)%N; [|discriminate].
        pose proof (skip_ws_length s4) as Hw4.
        destruct (skip_ws s4) as [|q s5]; [discriminate|].
        destruct (q =? 34)%N; [|discriminate].
        apply IHo. simpl in *. lia.
      * exfalso. revert Ev. apply IHv. simpl in *. lia.
    + intros values s Hf. cbn [array_items].
      destruct (scan_once fuel s) as [value s1| |] eqn:Ev; try discriminate.
      * apply (proj1 (scan_shorter fuel)) in Ev.
        pose proof (skip_ws_length s1) as Hw1.
        destruct (skip_ws s1) as [|c s2]; [discriminate|].
        destruct (c =? 93)%N; [discriminate|].
        destruct (c =? 44)%N; [|discriminate].
        pose proof (skip_ws_length s2) as Hw2.
        apply IHa. simpl in *. lia.
      * exfalso. revert Ev. apply IHv. lia.
Qed.

(** [json.loads] always decides: the budget it gives is enough. *)
Lemma scan_once_enough_fuel (s : str) :
  scan_once (fuel_for s) (skip_ws s) <> Exhausted.
Proof.
  apply (proj1 (scan_enough_fuel (fuel_for s))).
  pose proof (skip_ws_length s). unfold fuel_for. lia.
Qed.

(** A result reached within a budget is the result for any larger one. *)
Lemma scan_fuel_step (fuel : nat) :
  (forall s, scan_once fuel s <> Exhausted ->
             scan_once (S fuel) s = scan_once fuel s) /\
  (forall pairs s, object_members fuel pairs s <> Exhausted ->
                   object_members (S fuel) pairs s = object_members fuel pairs s) /\
  (forall values s, array_items fuel values s <> Exhausted ->
                    array_items (S fuel) values s = array_items fuel values s).
Proof.
  induction fuel as [|fuel (IHv & IHo & IHa)].
  - repeat split; intros; exfalso; auto.
  - repeat split.
    + intros s H.
      cbn [scan_once] in *.
      destruct s as [|c t]; [reflexivity|].
      destruct (c =? 34)%N; [reflexivity|].
      destruct (c =? 123)%N.
      { destruct (skip_ws t) as [|c1 t1]; [reflexivity|].
        destruct (c1 =? 125)%N; [reflexivity|].
        destruct (c1 =? 34)%N; [|reflexivity].
        apply IHo; exact H. }
      destruct (c =? 91)%N.
      { destruct (skip_ws t) as [|c1 t1]; [reflexivity|].
        destruct (c1 =? 93)%N; [reflexivity|].
        apply IHa; exact H. }
      reflexivity.
    + intros pairs s H.
      cbn [object_members] in H |- *.
      destruct (scanstring s) as [[key s1]|]; [|reflexivity].
      destruct (skip_ws s1) as [|colon s2]; [reflexivity|].
      destruct (colon =? 58)%N; [|reflexivity].
      rewrite IHv by (intros E; rewrite E in H; apply H; reflexivity).
      destruct (scan_once fuel (skip_ws s2)) as [value s3| |]; try reflexivity.
      cbv zeta in *.
      destruct (skip_ws s3) as [|c s4]; [reflexivity|].
      destruct (c =? 125)%N; [reflexivity|].
      destruct (c =? 44)%N; [|reflexivity].
      destruct (skip_ws s4) as [|q s5]; [reflexivity|].
      destruct (q =? 34)%N; [|reflexivity].
      apply IHo; exact H.
    + intros values s H.
      cbn [array_items] in H |- *.
      rewrite IHv by (intros E; rewrite E in H; apply H; reflexivity).
      destruct (scan_once fuel s) as [value s1| |]; try reflexivity.
      cbv zeta in *.
      destruct (skip_ws s1) as [|c s2]; [reflexivity|].
      destruct (c =? 93)%N; [reflexivity|].
      destruct (c =? 44)%N; [|reflexivity].
      apply IHa; exact H.
Qed.

(** [loads] on sample texts. *)
Example loads_number : loads (lit "42") = Some (JInt 42).
Proof. reflexivity. Qed.

Example loads_array :
  loads (lit " [1, -2.5e3, true, false, null, {}, []] ") =
    Some (JList [JInt 1; JFloat (lit "-2.5e3"); JBool true; JBool false;
                 JNone; JDict []; JList []]).
Proof. reflexivity. Qed.

Example loads_duplicate_key :
  loads (lit "{" ++ quoted (lit "a") ++ lit ": 1, " ++ quoted (lit "b")
           ++ lit ": 2, " ++ quoted (lit "a") ++ lit ": 3}") =
    Some (JDict [(lit "a", JInt 3); (lit "b", JInt 2)]).
Proof. reflexivity. Qed.

Example loads_escapes :
  loads (quoted (lit "\u00e9\n\ud83d\ude00\/")) =
    Some (JStr [0xE9%N; 10%N; 0x1F600%N; 47%N]).
Proof. reflexivity. Qed.

Example loads_rejects :
  map loads [ []; lit "{oops"; lit "[1,]"; lit "01"; lit "1."; lit "-";
              lit "nul"; lit "42 43"; quoted (lit "\x") ]
  = [None; None; None; None; None; None; None; None; None].
Proof. reflexivity. Qed.

Lemma scan_once_more_fuel (extra fuel : nat) (s : str) :
  scan_once fuel s <> Exhausted ->
  scan_once (extra + fuel) s = scan_once fuel s.
Proof.
  intros H. induction extra as [|extra IH]; [reflexivity|].
  simpl. rewrite <- IH.
  apply (proj1 (scan_fuel_step (extra + fuel))). rewrite IH. exact H.
Qed.

End JsonFacts.

(* ================================================================== *)
(** ** Properties of the subscriber *)
(* ================================================================== *)

Module SubscribeFacts.

Import Subscribe.
Local Open Scope py_scope.

#[local] Arguments lit : simpl never.
#[local] Arguments strip : simpl never.
#[local] Arguments slice_from : simpl never.
#[local] Arguments contains : simpl never.
#[local] Arguments startswith : simpl never.
#[local] Arguments times : simpl never.
#[local] Arguments loads : simpl never.
#[local] Arguments dict_lookup : simpl never.
#[local] Arguments echo : simpl never.

(** *** Computations *)

Lemma calls_bind (A B : Type) (m : M A) (k : A -> M B) :
  calls (bind m k) =
    calls m ++ match outcome m with
               | Returns a => calls (k a)
               | Raises _ => []
               end.
Proof.
  destruct m as [t [a|e]]; simpl.
  - destruct (k a); reflexivity.
  - rewrite app_nil_r; reflexivity.
Qed.

Lemma outcome_bind (A B : Type) (m : M A) (k : A -> M B) :
  outcome (bind m k) =
    match outcome m with
    | Returns a => outcome (k a)
    | Raises e => Raises e
    end.
Proof.
  destruct m as [t [a|e]]; simpl; [destruct (k a)|]; reflexivity.
Qed.

Lemma calls_try_except (A : Type) (m : M A) (handler : exn -> option (M A)) :
  calls (try_except m handler) =
    calls m ++ match outcome m with
               | Returns _ => []
               | Raises e =>
                   match handler e with
                   | Some h => calls h
                   | None => []
                   end
               end.
Proof.
  destruct m as [t [a|e]]; simpl.
  - rewrite app_nil_r; reflexivity.
  - destruct (handler e) as [[t' r]|]; simpl; rewrite ?app_nil_r; reflexivity.
Qed.

Lemma outcome_try_except (A : Type) (m : M A) (handler : exn -> option (M A)) :
  outcome (try_except m handler) =
    match outcome m with
    | Returns a => Returns a
    | Raises e =>
        match handler e with
        | Some h => outcome h
        | None => Raises e
        end
    end.
Proof.
  destruct m as [t [a|e]]; simpl; [reflexivity|].
  destruct (handler e) as [[t' r]|]; reflexivity.
Qed.

Lemma printed_app (t1 t2 : list call) :
  printed (t1 ++ t2) = printed t1 ++ printed t2.
Proof.
  induction t1 as [|c t1 IH]; simpl; [reflexivity|].
  destruct c; simpl; rewrite ?IH; reflexivity.
Qed.



(** *** One line *)

Section Line.

Variable py : interpreter.







Lemma decode_event_unfold (line : str) :
  decode_event py line =
    if truthy (strip (slice_from 5 line))
    then bind (json_loads py (strip (slice_from 5 line))) (after_loads py)
    else ret tt.
Proof. reflexivity. Qed.


Lemma data_prefix_truthy (line : str) :
  startswith (lit "data:") line = true -> truthy line = true.
Proof. destruct line; [intros H; cbv in H; discriminate | reflexivity]. Qed.


Lemma listen_calls (camera_ip username password : str) (cam : camera) :
  exists later,
    calls (listen py camera_ip username password cam) =
      RequestsGet (subscription camera_ip username password) :: later.
Proof.
  unfold listen, requests_get, raise_for_status, iter_lines.
  destruct cam as [e|[[e|] lines]].
  - exists []. reflexivity.
  - exists [RaiseForStatus]. reflexivity.
  - exists (RaiseForStatus :: IterLines true :: calls (for_each_line py lines)).
    cbn. destruct (for_each_line py lines); reflexivity.
Qed.

End Line.

(** *** The processing loop *)

(** C9. An empty line makes no call at all: no echo, no decoding, no
    detection block; the loop goes on with the next line. *)
Theorem empty_line_is_silent (py : interpreter) (rest : stream) :
  loop_body py [] = ([], Returns tt)
  /\ for_each_line py (Line [] rest) = for_each_line py rest.
Proof.
  split; [reflexivity|].
  cbn. destruct (for_each_line py rest); reflexivity.
Qed.

(** *** Detections *)

Lemma loads_some_truthy (s : str) (v : json) :
  loads s = Some v -> truthy s = true.
Proof. destruct s; [intros H; cbv in H; discriminate | reflexivity]. Qed.

Lemma get_field (py : interpreter) (d : list (str * json)) (key : str)
    (placeholder : json) :
  get py (JDict d) key placeholder = ret (field d key placeholder).
Proof. reflexivity. Qed.

Lemma format_field (py : interpreter) (data : list (str * json)) (key : str) :
  format py (field data key NA) = shown_or_NA py data key.
Proof.
  unfold field, shown_or_NA. destruct (dict_lookup data key); reflexivity.
Qed.

(** The console output of a detection on a well-formed envelope. *)
Lemma print_detection_output (py : interpreter) (e : envelope) :
  print_detection py (env_timestamp e) (JStr (env_topic e)) (JDict (env_data e))
  = (map Print (detection_block py e), Returns tt).
Proof.
  unfold print_detection. rewrite !get_field.
  cbn [bind ret print do_call app].
  unfold detection_block, class_line, confidence_line, bbox_line.
  rewrite !format_field. reflexivity.
Qed.

(** What the loop body does with a decoded, well-formed envelope. *)
Lemma loop_body_envelope (py : interpreter) (line : str) (v : json)
    (e : envelope) :
  startswith (lit "data:") line = true ->
  loads (strip (slice_from 5 line)) = Some v ->
  read_envelope v = Some e ->
  loop_body py line =
    (Print (echo line) :: JsonLoads (strip (slice_from 5 line)) ::
       (if contains (lit "VideoAnalytics") (env_topic e)
           && contains (lit "ObjectDetected") (env_topic e)
        then map Print (detection_block py e) else []),
     Returns tt).
Proof.
  intros Hprefix Hloads Henv.
  destruct v as [| | | | |items|d]; try discriminate Henv.
  unfold read_envelope in Henv.
  destruct (field d (lit "topic") (JStr (lit "Unknown"))) as [| | | |topic| |] eqn:Ht;
    try discriminate Henv.
  destruct (field d (lit "data") (JDict [])) as [| | | | | |data] eqn:Hd;
    try discriminate Henv.
  injection Henv as <-.
  unfold loop_body. rewrite (data_prefix_truthy _ Hprefix), Hprefix.
  unfold decode_event, json_loads.
  rewrite (loads_some_truthy _ Hloads), Hloads.
  cbn [bind ret do_call print app].
  rewrite !get_field. cbn [bind ret do_call print app].
  unfold Unknown. rewrite Ht, Hd.
  pose proof (print_detection_output py
                {| env_topic := topic; env_data := data;
                   env_timestamp := field d (lit "@timestamp") (JStr (lit "Unknown")) |})
    as Hblock.
  cbn [env_topic env_data env_timestamp] in Hblock |- *.
  cbn [str_in bind ret do_call print try_except app fst snd].
  destruct (contains (lit "VideoAnalytics") topic);
    destruct (contains (lit "ObjectDetected") topic);
    cbn [str_in bind ret do_call print try_except app fst snd andb];
    rewrite ?Hblock; cbn; rewrite ?app_nil_r; reflexivity.
Qed.

Lemma printed_prints (texts : list str) : printed (map Print texts) = texts.
Proof. induction texts as [|t texts IH]; simpl; [|rewrite IH]; reflexivity. Qed.

(** C3. The example line of the specification: the loop body echoes the
    raw line, decodes the payload and prints a detection block with time
    12:00:00, class person, confidence 87 and bounding box N/A.  A run of
    the script against a camera that sends this one line prints the three
    opening lines followed by the same output. *)
Theorem example_line_output (py : interpreter) :
  let output :=
    [ [0x1F4E8%N; 32%N] ++ example_line;
      0x1F3AF%N :: lit " OBJECT DETECTION EVENT!";
      lit "   " ++ 0x23F0%N :: lit " Time: 12:00:00";
      lit "   " ++ 0x1F4C2%N :: lit " Topic: tns1:VideoAnalytics/ObjectDetected";
      lit "   " ++ 0x1F3F7%N :: 0xFE0F%N :: lit "  Class: person";
      lit "   " ++ 0x1F4CA%N :: lit " Confidence: 87";
      lit "   " ++ 0x1F4D0%N :: lit " BBox: N/A";
      lit "------------------------------------------------------------" ] in
  outcome (loop_body py example_line) = Returns tt
  /\ printed (calls (loop_body py example_line)) = output
  /\ printed (calls (main py (Responds {| status_error := None;
                                          body := Line example_line Eof |}))) =
     [ 0x1F517%N :: lit " Subscribing to VideoAnalytics events on 169.254.118.229";
       0x1F3AF%N :: lit " Listening for events... (Press Ctrl+C to stop)";
       lit "============================================================" ]
     ++ output.
Proof. cbv zeta. repeat split; vm_compute; reflexivity. Qed.

(** *** The whole function *)



(** C10. The first thing the function does after its three opening
    lines is one [requests.get] on the event endpoint of the camera,
    with the two query parameters, digest authentication with the given
    credentials ([root] and [pass] when omitted), streaming and a
    timeout of 60. *)
Theorem subscription_request
    (py : interpreter) (camera_ip : str) (username password : option str)
    (cam : camera) :
  exists opening later,
    List.length opening = 3 /\ forallb is_print opening = true /\
    calls (subscribe_to_events py camera_ip username password cam) =
      opening ++
      RequestsGet
        {| req_url := lit "http://" ++ camera_ip ++ lit "/axis-cgi/event.cgi";
           req_params := [ (lit "action", lit "subscribe");
                           (lit "events", lit "tns1:VideoAnalytics/*") ];
           req_auth :=
             HTTPDigestAuth
               (match username with Some u => u | None => lit "root" end)
               (match password with Some p => p | None => lit "pass" end);
           req_stream := true;
           req_timeout := 60 |} :: later.
Proof.
  unfold subscribe_to_events.
  destruct (listen_calls py camera_ip (or_default username (lit "root"))
              (or_default password (lit "pass")) cam) as [later Hc].
  repeat (rewrite calls_bind; cbn [print do_call outcome calls fst snd app]).
  rewrite calls_try_except, Hc.
  exists [ Print (banner_subscribing camera_ip); Print banner_listening;
           Print rule_equals ].
  eexists. split; [reflexivity|]. split; [reflexivity|].
  reflexivity.
Qed.

End SubscribeFacts.

(* ================================================================== *)
(** ** Further behaviour of the subscriber *)
(* ================================================================== *)

Module RunFacts.

Import Subscribe SubscribeFacts.
Local Open Scope py_scope.

#[local] Arguments lit : simpl never.
#[local] Arguments strip : simpl never.
#[local] Arguments slice_from : simpl never.
#[local] Arguments contains : simpl never.
#[local] Arguments startswith : simpl never.
#[local] Arguments times : simpl never.
#[local] Arguments loads : simpl never.
#[local] Arguments dict_lookup : simpl never.
#[local] Arguments echo : simpl never.

(** *** Stripping *)

Lemma lstrip_spaces (ws s : str) :
  forallb is_space ws = true -> lstrip (ws ++ s) = lstrip s.
Proof.
  induction ws as [|c ws IH]; simpl; [reflexivity|].
  intros H. apply andb_true_iff in H. destruct H as [Hc Hws].
  rewrite Hc. apply IH, Hws.
Qed.

Lemma lstrip_app (s ws : str) :
  forallb is_space ws = true ->
  lstrip (s ++ ws) = match lstrip s with [] => [] | _ :: _ => lstrip s ++ ws end.
Proof.
  intros Hws. induction s as [|c s IH]; simpl.
  - rewrite <- (app_nil_r ws). rewrite (lstrip_spaces ws [] Hws). reflexivity.
  - destruct (is_space c); [exact IH | reflexivity].
Qed.

Lemma forallb_rev (A : Type) (f : A -> bool) (l : list A) :
  forallb f (rev l) = forallb f l.
Proof.
  induction l as [|x l IH]; simpl; [reflexivity|].
  rewrite forallb_app, IH. simpl. rewrite andb_true_r. apply andb_comm.
Qed.

Lemma rstrip_spaces (s ws : str) :
  forallb is_space ws = true -> rstrip (s ++ ws) = rstrip s.
Proof.
  intros Hws. unfold rstrip. rewrite rev_app_distr.
  rewrite lstrip_spaces; [reflexivity|]. rewrite forallb_rev. exact Hws.
Qed.

(** White space around a text does not change what [strip] yields. *)
Lemma strip_padding (ws1 p ws2 : str) :
  forallb is_space ws1 = true -> forallb is_space ws2 = true ->
  strip (ws1 ++ p ++ ws2) = strip p.
Proof.
  intros H1 H2. unfold strip.
  rewrite (lstrip_spaces ws1 _ H1), (lstrip_app p ws2 H2).
  destruct (lstrip p) eqn:E; [reflexivity|].
  rewrite <- E. apply rstrip_spaces, H2.
Qed.

(** *** A decoded payload *)

Lemma nde_bind (A B : Type) (m : M A) (k : A -> M B) :
  never_decode_error m -> (forall a, never_decode_error (k a)) ->
  never_decode_error (bind m k).
Proof.
  unfold never_decode_error. intros Hm Hk e. rewrite outcome_bind.
  destruct (outcome m) as [a|e'] eqn:E.
  - apply Hk.
  - intros H. inversion H; subst. apply Hm. reflexivity.
Qed.

Lemma nde_returns (A : Type) (t : list call) (a : A) :
  never_decode_error (t, Returns a).
Proof. intros e H. discriminate H. Qed.

Section Decoded.

Variable py : interpreter.

Lemma nde_get (obj : json) (key : str) (default : json) :
  never_decode_error (get py obj key default).
Proof.
  destruct obj; intros e H; try discriminate H;
    inversion H; subst; reflexivity.
Qed.

Lemma nde_str_in (sub : str) (container : json) :
  never_decode_error (str_in py sub container).
Proof.
  destruct container; intros e H; try discriminate H;
    inversion H; subst; reflexivity.
Qed.

Lemma nde_print_detection (timestamp topic data : json) :
  never_decode_error (print_detection py timestamp topic data).
Proof.
  unfold print_detection.
  repeat (apply nde_bind; [try apply nde_returns; apply nde_get | intros]).
  apply nde_returns.
Qed.

Lemma nde_after_loads (event_data : json) :
  never_decode_error (after_loads py event_data).
Proof.
  unfold after_loads.
  repeat (apply nde_bind;
          [first [apply nde_get | apply nde_str_in | idtac] | intros]).
  - destruct a2; [apply nde_str_in | apply nde_returns].
  - destruct a3; [apply nde_print_detection | apply nde_returns].
Qed.

(** Once [json.loads] has returned, the inner handler has nothing to
    catch: the loop body is the echo, the decoding, and what the rest of
    the inner [try] does with the decoded value. *)
Lemma loop_body_decoded (line : str) (v : json) :
  startswith (lit "data:") line = true ->
  loads (strip (slice_from 5 line)) = Some v ->
  loop_body py line =
    (Print (echo line) :: JsonLoads (strip (slice_from 5 line))
       :: calls (after_loads py v),
     outcome (after_loads py v)).
Proof.
  intros Hprefix Hloads.
  unfold loop_body. rewrite (data_prefix_truthy _ Hprefix), Hprefix.
  rewrite decode_event_unfold, (loads_some_truthy _ Hloads).
  unfold json_loads. rewrite Hloads.
  pose proof (nde_after_loads v) as Hnde. unfold never_decode_error in Hnde.
  cbn [bind ret do_call print app].
  destruct (after_loads py v) as [t [[]|e]]; cbn in *.
  - reflexivity.
  - unfold skip_decode_error. rewrite (Hnde e eq_refl). reflexivity.
Qed.

Lemma print_detection_dict (timestamp topic : json) (data : list (str * json)) :
  print_detection py timestamp topic (JDict data)
  = (map Print (block_lines py timestamp topic data), Returns tt).
Proof.
  unfold print_detection. rewrite !get_field.
  cbn [bind ret print do_call app].
  unfold block_lines, class_line, confidence_line, bbox_line.
  rewrite !format_field. reflexivity.
Qed.

Lemma after_loads_dict (d : list (str * json)) :
  after_loads py (JDict d) =
    (has_va <- str_in py (lit "VideoAnalytics") (field d (lit "topic") Unknown) ;;
     is_detection <-
       (if has_va : bool
        then str_in py (lit "ObjectDetected") (field d (lit "topic") Unknown)
        else ret false) ;;
     if is_detection : bool
     then print_detection py (field d (lit "@timestamp") Unknown)
            (field d (lit "topic") Unknown) (field d (lit "data") (JDict []))
     else ret tt).
Proof.
  unfold after_loads. rewrite !get_field. cbn [bind ret app].
  destruct (str_in py (lit "VideoAnalytics") (field d (lit "topic") Unknown))
    as [t [[]|e]]; cbn [bind ret app]; try reflexivity.
  - destruct (str_in py (lit "ObjectDetected") (field d (lit "topic") Unknown))
      as [t' [[]|e']]; cbn [bind ret app]; try reflexivity;
      destruct (print_detection py _ _ _); rewrite ?app_nil_r; reflexivity.
Qed.

End Decoded.

(** *** Payloads that are not envelopes *)

(** X1. A payload that decodes to anything but an object (a number, a
    string, a list, [true], [null]) makes [.get] raise [AttributeError]
    right after the decoding: the line is echoed, nothing else is
    printed for it, and the exception leaves the loop body. *)
Theorem non_object_payload_raises (py : interpreter) (line : str) (v : json) :
  startswith (lit "data:") line = true ->
  loads (strip (slice_from 5 line)) = Some v ->
  is_dict v = false ->
  loop_body py line =
    ([Print (echo line); JsonLoads (strip (slice_from 5 line))],
     Raises (Exn AttributeError (attribute_error_text py v (lit "get")))).
Proof.
  intros Hprefix Hloads Hv.
  rewrite (loop_body_decoded py _ Hprefix Hloads).
  destruct v; try discriminate Hv; reflexivity.
Qed.

(** X2. An object whose [topic] is a number, a boolean or [null] makes the
    [in] test raise [TypeError]: the line is echoed, no detection line is
    printed, and the exception leaves the loop body whatever [data]
    holds. *)
Theorem non_container_topic_raises
    (py : interpreter) (line : str) (d : list (str * json)) (topic : json) :
  startswith (lit "data:") line = true ->
  loads (strip (slice_from 5 line)) = Some (JDict d) ->
  dict_lookup d (lit "topic") = Some topic ->
  not_container topic = true ->
  loop_body py line =
    ([Print (echo line); JsonLoads (strip (slice_from 5 line))],
     Raises (Exn TypeError (not_container_text py topic))).
Proof.
  intros Hprefix Hloads Htopic Hnc.
  rewrite (loop_body_decoded py _ Hprefix Hloads), after_loads_dict.
  unfold field. rewrite Htopic.
  destruct topic; try discriminate Hnc; reflexivity.
Qed.

Lemma member_spec (sub : str) (items : list json) :
  existsb (fun v => match v with
                    | JStr s => Str.eqb sub s
                    | _ => false
                    end) items = true
  <-> In (JStr sub) items.
Proof.
  rewrite existsb_exists. split.
  - intros [v [Hin Hv]]. destruct v; try discriminate Hv.
    apply StrFacts.eqb_eq in Hv. subst. exact Hin.
  - intros Hin. exists (JStr sub). split; [exact Hin|].
    apply StrFacts.eqb_eq. reflexivity.
Qed.

(** What the loop body does with an object whose topic test does not
    raise: [matches] is the verdict of the test. *)
Lemma loop_body_verdict (py : interpreter) (line : str) (d : list (str * json))
    (matches : bool) :
  startswith (lit "data:") line = true ->
  loads (strip (slice_from 5 line)) = Some (JDict d) ->
  (has_va <- str_in py (lit "VideoAnalytics") (field d (lit "topic") Unknown) ;;
   if has_va : bool
   then str_in py (lit "ObjectDetected") (field d (lit "topic") Unknown)
   else ret false) = ret matches ->
  loop_body py line =
    (Print (echo line) :: JsonLoads (strip (slice_from 5 line)) ::
       (if matches
        then calls (print_detection py (field d (lit "@timestamp") Unknown)
                      (field d (lit "topic") Unknown)
                      (field d (lit "data") (JDict [])))
        else []),
     if matches
     then outcome (print_detection py (field d (lit "@timestamp") Unknown)
                     (field d (lit "topic") Unknown)
                     (field d (lit "data") (JDict [])))
     else Returns tt).
Proof.
  intros Hprefix Hloads Hverdict.
  rewrite (loop_body_decoded py _ Hprefix Hloads), after_loads_dict.
  destruct (str_in py (lit "VideoAnalytics") (field d (lit "topic") Unknown))
    as [t1 [[]|e1]]; cbn [bind ret app] in Hverdict |- *;
    try discriminate Hverdict.
  - destruct (str_in py (lit "ObjectDetected") (field d (lit "topic") Unknown))
      as [t2 [b|e2]]; cbn [bind ret app] in Hverdict |- *;
      try discriminate Hverdict.
    injection Hverdict as Ht Hb. apply app_eq_nil in Ht. destruct Ht; subst.
    cbn [app]. destruct matches; [|reflexivity].
    cbn [calls outcome fst snd]. destruct (print_detection py _ _ _); reflexivity.
  - injection Hverdict as Ht Hb. rewrite app_nil_r in Ht. subst. reflexivity.
Qed.

(** *** String topics *)

Lemma string_topic_verdict (py : interpreter) (d : list (str * json)) (t : str) :
  field d (lit "topic") Unknown = JStr t ->
  (has_va <- str_in py (lit "VideoAnalytics") (field d (lit "topic") Unknown) ;;
   if has_va : bool
   then str_in py (lit "ObjectDetected") (field d (lit "topic") Unknown)
   else ret false)
  = ret (contains (lit "VideoAnalytics") t && contains (lit "ObjectDetected") t).
Proof.
  intros ->. cbn [str_in bind ret app].
  destruct (contains (lit "VideoAnalytics") t); reflexivity.
Qed.

(** X5. When the topic is a string that lacks one of the two substrings,
    [data] and [@timestamp] are never looked at: the line is echoed and
    decoded, nothing more is printed and nothing is raised, even when
    [data] is not a mapping. *)
Theorem unmatched_topic_ignores_data
    (py : interpreter) (line : str) (d : list (str * json)) (t : str) :
  startswith (lit "data:") line = true ->
  loads (strip (slice_from 5 line)) = Some (JDict d) ->
  field d (lit "topic") Unknown = JStr t ->
  ~ (occurs_in (lit "VideoAnalytics") t /\ occurs_in (lit "ObjectDetected") t) ->
  loop_body py line =
    ([Print (echo line); JsonLoads (strip (slice_from 5 line))], Returns tt).
Proof.
  intros Hprefix Hloads Htopic Hno.
  rewrite (@loop_body_verdict py line d _ Hprefix Hloads (string_topic_verdict py d Htopic)).
  rewrite <- !StrFacts.contains_spec in Hno.
  destruct (contains (lit "VideoAnalytics") t), (contains (lit "ObjectDetected") t);
    try reflexivity.
  exfalso. apply Hno. split; reflexivity.
Qed.

(** X6. An object without a [topic] key is never a detection: the
    placeholder topic matches nothing, so the line is echoed and decoded
    and that is all, whatever the other keys hold. *)
Theorem missing_topic_is_no_detection
    (py : interpreter) (line : str) (d : list (str * json)) :
  startswith (lit "data:") line = true ->
  loads (strip (slice_from 5 line)) = Some (JDict d) ->
  dict_lookup d (lit "topic") = None ->
  loop_body py line =
    ([Print (echo line); JsonLoads (strip (slice_from 5 line))], Returns tt).
Proof.
  intros Hprefix Hloads Htopic.
  assert (Hfield : field d (lit "topic") Unknown = JStr (lit "Unknown"))
    by (unfold field; rewrite Htopic; reflexivity).
  rewrite (@loop_body_verdict py line d _ Hprefix Hloads (string_topic_verdict py d Hfield)).
  reflexivity.
Qed.

(** *** White space around the payload *)

Lemma loop_body_data_line (py : interpreter) (payload : str) :
  loop_body py (lit "data:" ++ payload) =
    bind (print (echo (lit "data:" ++ payload)))
      (fun _ => try_except
                  (if truthy (strip payload)
                   then bind (json_loads py (strip payload)) (after_loads py)
                   else ret tt)
                  skip_decode_error).
Proof. reflexivity. Qed.

(** X10. A [data:] line whose payload is nothing but white space is
    echoed and otherwise ignored: no decoding, no message, no error. *)
Theorem blank_payload_is_only_echoed (py : interpreter) (ws : str) :
  forallb is_space ws = true ->
  loop_body py (lit "data:" ++ ws)
  = ([Print (echo (lit "data:" ++ ws))], Returns tt).
Proof.
  intros Hws. rewrite loop_body_data_line.
  assert (Hstrip : strip ws = []).
  { pose proof (@strip_padding ws [] [] Hws eq_refl) as H.
    rewrite app_nil_r in H. exact H. }
  rewrite Hstrip. reflexivity.
Qed.

(** X11. White space between the prefix and the payload, and after the
    payload, changes nothing but the echo: the padded line and the bare
    line lead to the same calls after the echo and end the same way. *)
Theorem payload_padding_is_irrelevant (py : interpreter) (ws1 p ws2 : str) :
  forallb is_space ws1 = true ->
  forallb is_space ws2 = true ->
  exists later ending,
    loop_body py (lit "data:" ++ ws1 ++ p ++ ws2)
    = (Print (echo (lit "data:" ++ ws1 ++ p ++ ws2)) :: later, ending)
    /\ loop_body py (lit "data:" ++ p)
       = (Print (echo (lit "data:" ++ p)) :: later, ending).
Proof.
  intros H1 H2. rewrite !loop_body_data_line, (strip_padding ws1 p ws2 H1 H2).
  destruct (try_except
              (if truthy (strip p)
               then bind (json_loads py (strip p)) (after_loads py)
               else ret tt) skip_decode_error) as [later ending].
  exists later, ending. split; reflexivity.
Qed.

(** *** Whole runs *)







Lemma for_each_line_serve (py : interpreter) (ls : list str) (rest : stream) :
  Forall (fun l => outcome (loop_body py l) = Returns tt) ls ->
  for_each_line py (serve ls rest) =
    (List.concat (map (fun l => calls (loop_body py l)) ls)
       ++ calls (for_each_line py rest),
     outcome (for_each_line py rest)).
Proof.
  induction 1 as [|l ls Hl Hls IH]; cbn [serve fold_right map List.concat app].
  - destruct (for_each_line py rest); reflexivity.
  - fold (serve ls rest). cbn [for_each_line]. rewrite IH.
    destruct (loop_body py l) as [t r]. cbn [outcome snd] in Hl. subst r.
    cbn [bind calls fst]. rewrite app_assoc. reflexivity.
Qed.

(** X14. The loop treats each line on its own: as long as the lines are
    processed without an exception, the calls of the loop are the calls
    for each line, in order, followed by those for the rest of the
    stream, and the loop ends as the rest makes it end. *)
Theorem loop_processes_lines_in_order
    (py : interpreter) (ls : list str) (rest : stream) :
  Forall (fun l => outcome (loop_body py l) = Returns tt) ls ->
  for_each_line py (serve ls rest) =
    (List.concat (map (fun l => calls (loop_body py l)) ls)
       ++ calls (for_each_line py rest),
     outcome (for_each_line py rest)).
Proof. exact (@for_each_line_serve py ls rest). Qed.

Lemma plain_line (py : interpreter) (line : str) :
  startswith (lit "data:") line = false ->
  loop_body py line = (if truthy line then [Print (echo line)] else [], Returns tt).
Proof.
  intros Hs. unfold loop_body. rewrite Hs. destruct (truthy line); reflexivity.
Qed.


(** *** Instances on concrete inputs *)

Lemma non_object_payload_raises_witness :
  loop_body mute number_line =
    ([Print (echo number_line); JsonLoads (strip (slice_from 5 number_line))],
     Raises (Exn AttributeError (attribute_error_text mute (JInt 42) (lit "get")))).
Proof.
  apply (@non_object_payload_raises mute number_line (JInt 42)); reflexivity.
Defined.

Lemma non_container_topic_raises_witness :
  loop_body mute null_topic_line =
    ([Print (echo null_topic_line);
      JsonLoads (strip (slice_from 5 null_topic_line))],
     Raises (Exn TypeError (not_container_text mute JNone))).
Proof.
  apply (@non_container_topic_raises mute null_topic_line
           [(lit "topic", JNone)] JNone); reflexivity.
Defined.

Lemma unmatched_topic_ignores_data_witness :
  loop_body mute other_topic_line =
    ([Print (echo other_topic_line);
      JsonLoads (strip (slice_from 5 other_topic_line))], Returns tt).
Proof.
  apply (@unmatched_topic_ignores_data mute other_topic_line
           [(lit "topic", JStr (lit "tns1:Device/Trigger")); (lit "data", JInt 7)]
           (lit "tns1:Device/Trigger")); try reflexivity.
  rewrite <- !StrFacts.contains_spec. intros [H _]. vm_compute in H.
  discriminate H.
Defined.

Lemma missing_topic_is_no_detection_witness :
  loop_body mute no_topic_line =
    ([Print (echo no_topic_line);
      JsonLoads (strip (slice_from 5 no_topic_line))], Returns tt).
Proof.
  apply (@missing_topic_is_no_detection mute no_topic_line [(lit "data", JInt 7)]);
    reflexivity.
Defined.

Lemma blank_payload_is_only_echoed_witness :
  loop_body mute (lit "data:" ++ lit "  ")
  = ([Print (echo (lit "data:" ++ lit "  "))], Returns tt).
Proof.
  apply (@blank_payload_is_only_echoed mute (lit "  ")). reflexivity.
Defined.

Lemma payload_padding_is_irrelevant_witness :
  exists later ending,
    loop_body mute (lit "data:" ++ lit " " ++ lit "42" ++ lit "  ")
    = (Print (echo (lit "data:" ++ lit " " ++ lit "42" ++ lit "  ")) :: later,
       ending)
    /\ loop_body mute (lit "data:" ++ lit "42")
       = (Print (echo (lit "data:" ++ lit "42")) :: later, ending).
Proof.
  apply (@payload_padding_is_irrelevant mute (lit " ") (lit "42") (lit "  "));
    reflexivity.
Defined.

Lemma loop_processes_lines_in_order_witness :
  let ls := [lit ": heartbeat"; malformed_line] in
  for_each_line mute (serve ls (Line number_line Eof)) =
    (List.concat (map (fun l => calls (loop_body mute l)) ls)
       ++ calls (for_each_line mute (Line number_line Eof)),
     outcome (for_each_line mute (Line number_line Eof))).
Proof.
  apply (@loop_processes_lines_in_order mute
           [lit ": heartbeat"; malformed_line] (Line number_line Eof)).
  repeat constructor.
Defined.


End RunFacts.

(* ================================================================== *)
(** ** Facts about [json.loads] under limits *)
(* ================================================================== *)

Module RuntimeFacts.

Import Runtime.

Lemma scan_atom_agrees (lim : limits) (s : str) :
  scan_atom lim s = of_plain (scan_of_option (Json.scan_atom s))
  \/ scan_atom lim s = Refused TooManyDigits.
Proof.
  unfold scan_atom. destruct (Json.scan_atom s) as [[v rest]|]; [|left; reflexivity].
  destruct v; try (left; reflexivity).
  destruct (exceeds (max_str_digits lim) (integer_digits s));
    [right | left]; reflexivity.
Qed.

(** The scanner with limits does what the plain scanner does, unless it
    refuses. *)
Lemma scan_agrees (lim : limits) (fuel : nat) :
  (forall depth s,
      scan_once lim fuel depth s = of_plain (Json.scan_once fuel s)
      \/ exists why, scan_once lim fuel depth s = Refused why) /\
  (forall depth pairs s,
      object_members lim fuel depth pairs s
        = of_plain (Json.object_members fuel pairs s)
      \/ exists why, object_members lim fuel depth pairs s = Refused why) /\
  (forall depth values s,
      array_items lim fuel depth values s
        = of_plain (Json.array_items fuel values s)
      \/ exists why, array_items lim fuel depth values s = Refused why).
Proof.
  induction fuel as [|fuel (IHv & IHo & IHa)].
  - repeat split; intros; left; reflexivity.
  - repeat split.
    + intros depth s. cbn [scan_once Json.scan_once].
      destruct s as [|c t]; [left; reflexivity|].
      destruct (c =? 34)%N.
      { left. destruct (scanstring t) as [[content rest]|]; reflexivity. }
      destruct (c =? 123)%N.
      { destruct (exceeds (max_nesting lim) (S depth)); [right; eauto|].
        destruct (skip_ws t) as [|c1 t1]; [left; reflexivity|].
        destruct (c1 =? 125)%N; [left; reflexivity|].
        destruct (c1 =? 34)%N; [apply IHo | left; reflexivity]. }
      destruct (c =? 91)%N.
      { destruct (exceeds (max_nesting lim) (S depth)); [right; eauto|].
        destruct (skip_ws t) as [|c1 t1]; [left; reflexivity|].
        destruct (c1 =? 93)%N; [left; reflexivity | apply IHa]. }
      destruct (scan_atom_agrees lim (c :: t)) as [H|H]; [left | right; eauto];
        exact H.
    + intros depth pairs s. cbn [object_members Json.object_members].
      destruct (scanstring s) as [[key s1]|]; [|left; reflexivity].
      destruct (skip_ws s1) as [|colon s2]; [left; reflexivity|].
      destruct (colon =? 58)%N; [|left; reflexivity].
      destruct (IHv depth (skip_ws s2)) as [H|[why H]]; rewrite H;
        [|right; eauto].
      destruct (Json.scan_once fuel (skip_ws s2)) as [value s3| |];
        cbn [of_plain]; try (left; reflexivity).
      cbv zeta.
      destruct (skip_ws s3) as [|c s4]; [left; reflexivity|].
      destruct (c =? 125)%N; [left; reflexivity|].
      destruct (c =? 44)%N; [|left; reflexivity].
      destruct (skip_ws s4) as [|q s5]; [left; reflexivity|].
      destruct (q =? 34)%N; [apply IHo | left; reflexivity].
    + intros depth values s. cbn [array_items Json.array_items].
      destruct (IHv depth s) as [H|[why H]]; rewrite H; [|right; eauto].
      destruct (Json.scan_once fuel s) as [value s1| |];
        cbn [of_plain]; try (left; reflexivity).
      cbv zeta.
      destruct (skip_ws s1) as [|c s2]; [left; reflexivity|].
      destruct (c =? 93)%N; [left; reflexivity|].
      destruct (c =? 44)%N; [apply IHa | left; reflexivity].
Qed.

(** [loads] always reaches a verdict within its budget. *)
Lemma loads_enough_fuel (lim : limits) (s : str) :
  scan_once lim (fuel_for s) 0 (skip_ws s) <> Exhausted.
Proof.
  destruct (proj1 (scan_agrees lim (fuel_for s)) 0 (skip_ws s)) as [H|[why H]];
    rewrite H; [|discriminate].
  pose proof (JsonFacts.scan_once_enough_fuel s) as Hp.
  destruct (Json.scan_once (fuel_for s) (skip_ws s)); try discriminate.
  exfalso; apply Hp; reflexivity.
Qed.

(** A value returned under limits is the value of the plain decoder. *)
Lemma loads_value (lim : limits) (s : str) (v : json) :
  loads lim s = Value v -> Json.loads s = Some v.
Proof.
  unfold loads, Json.loads. destruct (startswith [0xFEFF%N] s); [discriminate|].
  destruct (proj1 (scan_agrees lim (fuel_for s)) 0 (skip_ws s)) as [H|[why H]];
    rewrite H; [|discriminate].
  destruct (Json.scan_once (fuel_for s) (skip_ws s)) as [v' rest| |];
    cbn [of_plain]; try discriminate.
  destruct (skip_ws rest); [|discriminate].
  intros E. inversion E. reflexivity.
Qed.

(** A [JSONDecodeError] under limits is one of the plain decoder. *)
Lemma loads_malformed (lim : limits) (s : str) :
  loads lim s = Malformed -> Json.loads s = None.
Proof.
  unfold loads, Json.loads. destruct (startswith [0xFEFF%N] s); [reflexivity|].
  destruct (proj1 (scan_agrees lim (fuel_for s)) 0 (skip_ws s)) as [H|[why H]];
    rewrite H; [|discriminate].
  destruct (Json.scan_once (fuel_for s) (skip_ws s)) as [v' rest| |];
    cbn [of_plain]; try reflexivity.
  destruct (skip_ws rest); [discriminate | reflexivity].
Qed.




End RuntimeFacts.

(* ================================================================== *)
(** ** Properties of the subscriber in any environment *)
(* ================================================================== *)

Module SessionFacts.

Import Subscribe.
Import Session.
Local Open Scope session_scope.
#[local] Unset Implicit Arguments.

#[local] Arguments lit : simpl never.
#[local] Arguments strip : simpl never.
#[local] Arguments slice_from : simpl never.
#[local] Arguments contains : simpl never.
#[local] Arguments startswith : simpl never.
#[local] Arguments times : simpl never.
#[local] Arguments dict_lookup : simpl never.
#[local] Arguments echo : simpl never.
#[local] Arguments bytes_repr : simpl never.
#[local] Arguments Runtime.loads : simpl never.

(** *** What [strip] yields *)








(** *** Computations *)

Lemma calls_bind_at (A B : Type) (m : M A) (k : A -> M B) (h : list call) :
  calls (bind m k) h =
    calls m h ++ match outcome m h with
                 | Returns a => calls (k a) (h ++ calls m h)
                 | Raises _ => []
                 end.
Proof.
  unfold calls, outcome, bind. destruct (m h) as [t [a|e]]; simpl.
  - destruct (k a (h ++ t)); reflexivity.
  - rewrite app_nil_r; reflexivity.
Qed.

Lemma outcome_bind_at (A B : Type) (m : M A) (k : A -> M B) (h : list call) :
  outcome (bind m k) h =
    match outcome m h with
    | Returns a => outcome (k a) (h ++ calls m h)
    | Raises e => Raises e
    end.
Proof.
  unfold calls, outcome, bind. destruct (m h) as [t [a|e]]; simpl;
    [destruct (k a (h ++ t))|]; reflexivity.
Qed.

Lemma run_pair (A : Type) (m : M A) (h : list call) :
  m h = (calls m h, outcome m h).
Proof. unfold calls, outcome. destruct (m h); reflexivity. Qed.

Lemma bind_returns (A B : Type) (m : M A) (k : A -> M B) (h t : list call)
    (a : A) :
  m h = (t, Returns a) ->
  bind m k h = (t ++ calls (k a) (h ++ t), outcome (k a) (h ++ t)).
Proof.
  intros H. unfold bind, calls, outcome. rewrite H.
  destruct (k a (h ++ t)); reflexivity.
Qed.

Lemma bind_raises (A B : Type) (m : M A) (k : A -> M B) (h t : list call)
    (e : exn) :
  m h = (t, Raises e) -> bind m k h = (t, Raises e).
Proof. intros H. unfold bind. rewrite H. reflexivity. Qed.

Lemma print_written (w : world) (text : str) (h : list call) :
  console w h text = Written -> print w text h = ([Print text], Returns tt).
Proof. intros H. unfold print. rewrite H. reflexivity. Qed.



Lemma nde_bind_at (A B : Type) (m : M A) (k : A -> M B) :
  never_decode_error m -> (forall a, never_decode_error (k a)) ->
  never_decode_error (bind m k).
Proof.
  unfold never_decode_error. intros Hm Hk h e. rewrite outcome_bind_at.
  destruct (outcome m h) as [a|e'] eqn:E.
  - apply Hk.
  - intros H. inversion H; subst. exact (Hm h e E).
Qed.

Lemma nde_ret (A : Type) (a : A) : never_decode_error (ret a).
Proof. intros h e H. discriminate H. Qed.

Section Line.

Variable w : world.


Lemma nde_print (text : str) : never_decode_error (print w text).
Proof.
  intros h e. unfold outcome, print.
  destruct (console w h text) as [|why|why]; simpl; intros H;
    try discriminate H; inversion H; subst; destruct why; reflexivity.
Qed.


Lemma nde_get_at (obj : json) (key : str) (default : json) :
  never_decode_error (get w obj key default).
Proof.
  destruct obj; intros h e H; try discriminate H;
    inversion H; subst; reflexivity.
Qed.


Lemma nde_str_in_at (sub : str) (container : json) :
  never_decode_error (str_in w sub container).
Proof.
  destruct container; intros h e H; try discriminate H;
    inversion H; subst; reflexivity.
Qed.


Lemma nde_print_detection_at (timestamp topic data : json) :
  never_decode_error (print_detection w timestamp topic data).
Proof.
  unfold print_detection.
  repeat (apply nde_bind_at; [try apply nde_print; apply nde_get_at | intros]).
  apply nde_print.
Qed.


Lemma nde_after_loads_at (event_data : json) :
  never_decode_error (after_loads w event_data).
Proof.
  unfold after_loads.
  repeat (apply nde_bind_at;
          [first [apply nde_get_at | apply nde_str_in_at | idtac] | intros]).
  - destruct a2; [apply nde_str_in_at | apply nde_ret].
  - destruct a3; [apply nde_print_detection_at | apply nde_ret].
Qed.

Lemma data_prefix_nonempty (s : str) :
  startswith (lit "data:") s = true -> truthy s = true.
Proof. destruct s; [intros H; cbv in H; discriminate | reflexivity]. Qed.

(** The inner [try] on a text line, by what [json.loads] does. *)
Lemma inner_try (s : str) (h : list call) :
  let payload := strip (slice_from 5 s) in
  try_except (decode_event w s) skip_decode_error h =
    if truthy payload then
      match Runtime.loads (limits w) payload with
      | Runtime.Value v =>
          (JsonLoads payload :: calls (after_loads w v) (h ++ [JsonLoads payload]),
           outcome (after_loads w v) (h ++ [JsonLoads payload]))
      | Runtime.Malformed => ([JsonLoads payload], Returns tt)
      | Runtime.Refusal Runtime.TooManyDigits =>
          ([JsonLoads payload],
           Raises (Exn ValueError (digits_error_text w payload)))
      | Runtime.Refusal Runtime.TooDeep =>
          ([JsonLoads payload],
           Raises (Exn RecursionError (recursion_error_text w payload)))
      end
    else ([], Returns tt).
Proof.
  cbv zeta. unfold try_except, decode_event.
  destruct (truthy (strip (slice_from 5 s))); [|reflexivity].
  unfold json_loads, bind at 1, bind at 1, do_call.
  destruct (Runtime.loads (limits w) (strip (slice_from 5 s))) as [v| |[|]];
    cbn [ret raise app]; try reflexivity.
  pose proof (nde_after_loads_at v (h ++ [JsonLoads (strip (slice_from 5 s))]))
    as Hnde.
  unfold outcome in Hnde. unfold calls, outcome.
  destruct (after_loads w v (h ++ [JsonLoads (strip (slice_from 5 s))]))
    as [t [[]|e]]; cbn [fst snd app] in *; [reflexivity|].
  unfold skip_decode_error. rewrite (Hnde e eq_refl). reflexivity.
Qed.

(** A text line whose echo is written. *)
Lemma loop_body_text_written (s : str) (h : list call) :
  truthy s = true ->
  console w h (echo s) = Written ->
  loop_body w (Text s) h =
    if startswith (lit "data:") s then
      (Print (echo s)
         :: calls (try_except (decode_event w s) skip_decode_error)
              (h ++ [Print (echo s)]),
       outcome (try_except (decode_event w s) skip_decode_error)
         (h ++ [Print (echo s)]))
    else ([Print (echo s)], Returns tt).
Proof.
  intros Ht Hc. unfold loop_body. rewrite Ht.
  rewrite (bind_returns _ _ (print w (echo s)) _ h [Print (echo s)] tt
             (print_written w _ h Hc)).
  destruct (startswith (lit "data:") s); reflexivity.
Qed.


(** A [bytes] line that is not empty. *)
Lemma loop_body_bytes (b : list ascii) (h : list call) :
  b <> [] ->
  loop_body w (Bytes b) h =
    match console w h (echo (bytes_repr b)) with
    | Written =>
        ([Print (echo (bytes_repr b))],
         Raises (Exn TypeError (startswith_error_text w)))
    | Refused why => ([], Raises (failure w why (echo (bytes_repr b))))
    | WrittenThen why =>
        ([Print (echo (bytes_repr b))],
         Raises (failure w why (echo (bytes_repr b))))
    end.
Proof.
  intros Hb. destruct b as [|c b]; [congruence|].
  unfold loop_body, bind, print, raise.
  destruct (console w h (echo (bytes_repr (c :: b)))); reflexivity.
Qed.

End Line.

(** *** The processing loop *)

(** C1 (as the code has it). A text line that starts with [data:] and on
    whose stripped, non-empty payload [json.loads] raises
    [JSONDecodeError] is echoed, and, the echo written, nothing else is
    printed for it; the loop body returns and the loop goes on with the
    lines that follow. *)
Theorem malformed_text_line_is_skipped
    (w : world) (s : str) (rest : stream) (h : list call) :
  startswith (lit "data:") s = true ->
  strip (slice_from 5 s) <> [] ->
  Runtime.loads (limits w) (strip (slice_from 5 s)) = Runtime.Malformed ->
  console w h (echo s) = Written ->
  let done := [Print (echo s); JsonLoads (strip (slice_from 5 s))] in
  loop_body w (Text s) h = (done, Returns tt)
  /\ calls (for_each_line w (Line (Text s) rest)) h
     = done ++ calls (for_each_line w rest) (h ++ done)
  /\ outcome (for_each_line w (Line (Text s) rest)) h
     = outcome (for_each_line w rest) (h ++ done).
Proof.
  intros Hprefix Hpayload Hloads Hecho. cbv zeta.
  assert (Hbody : loop_body w (Text s) h
                  = ([Print (echo s); JsonLoads (strip (slice_from 5 s))],
                     Returns tt)).
  { rewrite (loop_body_text_written w s h (data_prefix_nonempty s Hprefix) Hecho).
    rewrite Hprefix. unfold calls, outcome. rewrite inner_try. cbv zeta.
    apply StrFacts.truthy_true in Hpayload. rewrite Hpayload, Hloads.
    reflexivity. }
  split; [exact Hbody|].
  assert (Hcalls : calls (loop_body w (Text s)) h
                   = [Print (echo s); JsonLoads (strip (slice_from 5 s))])
    by (unfold calls; rewrite Hbody; reflexivity).
  assert (Hout : outcome (loop_body w (Text s)) h = Returns tt)
    by (unfold outcome; rewrite Hbody; reflexivity).
  cbn [for_each_line]. rewrite calls_bind_at, outcome_bind_at, !Hcalls, Hout.
  split; reflexivity.
Qed.

(** C1 (as the specification has it) fails: an integer of 4301 digits is
    a payload on which [json.loads] fails, with [ValueError]; the inner
    handler does not catch it, the error message is printed and the
    line that follows is never read. *)
Lemma oversized_integer_is_not_skipped :
  startswith (lit "data:") big_integer_line = true
  /\ strip (slice_from 5 big_integer_line) <> []
  /\ Runtime.loads (limits utf8_world) (strip (slice_from 5 big_integer_line))
     = Runtime.Refusal Runtime.TooManyDigits
  /\ outcome (loop_body utf8_world (Text big_integer_line)) []
     = Raises (Exn ValueError [])
  /\ printed (calls (main utf8_world
                       (Responds {| status_error := None;
                                    body := Line (Text big_integer_line)
                                              (Line (Text example_line) Eof) |}))
                [])
     = [ banner_subscribing (lit "169.254.118.229"); banner_listening;
         rule_equals; echo big_integer_line;
         error_message (Exn ValueError []) ].
Proof.
  repeat split; try (vm_compute; reflexivity).
  vm_compute. discriminate.
Qed.







(** *** Detections *)

Lemma bind_print_accepted (w : world) (A : Type) (text : str)
    (k : unit -> M A) (h : list call) :
  accepts w text ->
  bind (print w text) k h =
    (Print text :: calls (k tt) (h ++ [Print text]),
     outcome (k tt) (h ++ [Print text])).
Proof.
  intros Ha. exact (bind_returns _ _ (print w text) k h [Print text] tt
                      (print_written w text h (Ha h))).
Qed.

Lemma bind_get_dict (w : world) (A : Type) (d : list (str * json))
    (key : str) (placeholder : json) (k : json -> M A) (h : list call) :
  bind (get w (JDict d) key placeholder) k h = k (field d key placeholder) h.
Proof.
  unfold bind, get, ret, field. rewrite app_nil_r.
  destruct (k _ h); reflexivity.
Qed.

(** A detection whose seven texts the console takes. *)
Lemma print_detection_accepted (w : world) (timestamp topic : json)
    (data : list (str * json)) (h : list call) :
  Forall (accepts w) (block_lines (runtime w) timestamp topic data) ->
  print_detection w timestamp topic (JDict data) h
  = (map Print (block_lines (runtime w) timestamp topic data), Returns tt).
Proof.
  unfold block_lines. intros H.
  repeat match goal with
         | H : Forall _ (_ :: _) |- _ =>
             let Ha := fresh "Ha" in
             let Ht := fresh "Ht" in
             apply Forall_cons_iff in H; destruct H as [Ha Ht]
         end.
  unfold print_detection.
  rewrite (bind_print_accepted w _ _ _ h Ha). unfold calls, outcome.
  rewrite (bind_print_accepted w _ _ _ _ Ha0). unfold calls, outcome.
  rewrite (bind_print_accepted w _ _ _ _ Ha1). unfold calls, outcome.
  rewrite bind_get_dict.
  unfold class_line, confidence_line, bbox_line.
  rewrite (SubscribeFacts.format_field (runtime w)).
  rewrite (bind_print_accepted w _ _ _ _ Ha2). unfold calls, outcome.
  rewrite bind_get_dict, (SubscribeFacts.format_field (runtime w)).
  rewrite (bind_print_accepted w _ _ _ _ Ha3). unfold calls, outcome.
  rewrite bind_get_dict, (SubscribeFacts.format_field (runtime w)).
  rewrite (bind_print_accepted w _ _ _ _ Ha4). unfold calls, outcome.
  rewrite (print_written w _ _ (Ha5 _)). reflexivity.
Qed.

Lemma loads_empty (lim : Runtime.limits) :
  Runtime.loads lim [] = Runtime.Malformed.
Proof. reflexivity. Qed.

(** A text line whose payload decodes. *)
Lemma loop_body_value (w : world) (s : str) (v : json) (h : list call) :
  startswith (lit "data:") s = true ->
  console w h (echo s) = Written ->
  Runtime.loads (limits w) (strip (slice_from 5 s)) = Runtime.Value v ->
  let decoded := [Print (echo s); JsonLoads (strip (slice_from 5 s))] in
  loop_body w (Text s) h =
    (decoded ++ calls (after_loads w v) (h ++ decoded),
     outcome (after_loads w v) (h ++ decoded)).
Proof.
  intros Hprefix Hecho Hloads. cbv zeta.
  rewrite (loop_body_text_written w s h (data_prefix_nonempty s Hprefix) Hecho).
  rewrite Hprefix. unfold calls at 1, outcome at 1. rewrite inner_try.
  cbv zeta. rewrite Hloads.
  destruct (strip (slice_from 5 s)) as [|c payload] eqn:Hp.
  - rewrite loads_empty in Hloads. discriminate Hloads.
  - cbn [truthy fst snd app]. rewrite <- app_assoc. reflexivity.
Qed.

Lemma str_in_membership (w : world) (sub : str) (container : json)
    (b : bool) (h : list call) :
  membership sub container = Some b ->
  str_in w sub container h = ([], Returns b).
Proof.
  destruct container; cbn [membership str_in]; intros H;
    try discriminate H; inversion H; reflexivity.
Qed.

(** The part that follows [json.loads], for an object whose topic the
    [in] operator accepts. *)
Lemma after_loads_object (w : world) (d : list (str * json)) (a b : bool)
    (h : list call) :
  membership (lit "VideoAnalytics") (field d (lit "topic") Unknown) = Some a ->
  membership (lit "ObjectDetected") (field d (lit "topic") Unknown) = Some b ->
  after_loads w (JDict d) h =
    if a && b
    then print_detection w (field d (lit "@timestamp") Unknown)
           (field d (lit "topic") Unknown) (field d (lit "data") (JDict [])) h
    else ([], Returns tt).
Proof.
  intros Ha Hb. unfold after_loads. rewrite !bind_get_dict.
  rewrite (bind_returns _ _ _ _ h [] a (str_in_membership w _ _ a h Ha)).
  unfold calls, outcome. rewrite app_nil_r. cbn [app].
  destruct a; cbn [andb].
  - rewrite (bind_returns _ _ _ _ h [] b (str_in_membership w _ _ b h Hb)).
    unfold calls, outcome. rewrite app_nil_r. cbn [app].
    destruct b; [|reflexivity].
    destruct (print_detection w _ _ _ h); reflexivity.
  - reflexivity.
Qed.

Lemma loop_body_object (w : world) (s : str) (d : list (str * json))
    (a b : bool) (h : list call) :
  startswith (lit "data:") s = true ->
  console w h (echo s) = Written ->
  Runtime.loads (limits w) (strip (slice_from 5 s)) = Runtime.Value (JDict d) ->
  membership (lit "VideoAnalytics") (field d (lit "topic") Unknown) = Some a ->
  membership (lit "ObjectDetected") (field d (lit "topic") Unknown) = Some b ->
  let decoded := [Print (echo s); JsonLoads (strip (slice_from 5 s))] in
  loop_body w (Text s) h =
    if a && b
    then (decoded ++ calls (print_detection w (field d (lit "@timestamp") Unknown)
                              (field d (lit "topic") Unknown)
                              (field d (lit "data") (JDict []))) (h ++ decoded),
          outcome (print_detection w (field d (lit "@timestamp") Unknown)
                     (field d (lit "topic") Unknown)
                     (field d (lit "data") (JDict []))) (h ++ decoded))
    else (decoded, Returns tt).
Proof.
  intros Hprefix Hecho Hloads Ha Hb. cbv zeta.
  rewrite (loop_body_value w s (JDict d) h Hprefix Hecho Hloads). cbv zeta.
  unfold calls, outcome. rewrite (after_loads_object w d a b _ Ha Hb).
  destruct (a && b); reflexivity.
Qed.

Lemma read_envelope_fields (v : json) (e : envelope) :
  read_envelope v = Some e ->
  exists d,
    v = JDict d
    /\ field d (lit "topic") Unknown = JStr (env_topic e)
    /\ field d (lit "data") (JDict []) = JDict (env_data e)
    /\ field d (lit "@timestamp") Unknown = env_timestamp e.
Proof.
  destruct v as [| | | | |items|d]; try discriminate. cbn [read_envelope].
  change (JStr (lit "Unknown")) with Unknown.
  destruct (field d (lit "topic") Unknown) eqn:Ht; try discriminate.
  destruct (field d (lit "data") (JDict [])) eqn:Hd; try discriminate.
  intros H. inversion H; subst e. exists d. repeat split; assumption.
Qed.

(** C2 (as the code has it). For a text line whose echo is written and
    whose payload decodes to an event envelope: when the topic holds both
    [VideoAnalytics] and [ObjectDetected] as substrings and the console
    takes the seven texts of the block, the loop body prints the block
    after the echo and returns; when the topic lacks one of the two,
    the loop body prints the echo only and returns.  The block shows the
    timestamp, the topic and the values under [ObjectClass],
    [Confidence] and [BoundingBox] in [data], each shown as [N/A] when
    its key is absent. *)
Theorem detection_block_iff_topic_matches
    (w : world) (s : str) (v : json) (e : envelope) (h : list call) :
  startswith (lit "data:") s = true ->
  Runtime.loads (limits w) (strip (slice_from 5 s)) = Runtime.Value v ->
  read_envelope v = Some e ->
  console w h (echo s) = Written ->
  let decoded := [Print (echo s); JsonLoads (strip (slice_from 5 s))] in
  (occurs_in (lit "VideoAnalytics") (env_topic e) /\
   occurs_in (lit "ObjectDetected") (env_topic e) ->
   Forall (accepts w) (detection_block (runtime w) e) ->
   loop_body w (Text s) h
   = (decoded ++ map Print (detection_block (runtime w) e), Returns tt))
  /\ (~ (occurs_in (lit "VideoAnalytics") (env_topic e) /\
         occurs_in (lit "ObjectDetected") (env_topic e)) ->
      loop_body w (Text s) h = (decoded, Returns tt)).
Proof.
  intros Hprefix Hloads Henv Hecho. cbv zeta.
  destruct (read_envelope_fields v e Henv) as (d & -> & Ht & Hd & Hts).
  pose proof (loop_body_object w s d
                (contains (lit "VideoAnalytics") (env_topic e))
                (contains (lit "ObjectDetected") (env_topic e)) h
                Hprefix Hecho Hloads) as Hbody.
  rewrite Ht in Hbody. specialize (Hbody eq_refl eq_refl). cbv zeta in Hbody.
  rewrite Hbody. rewrite <- !StrFacts.contains_spec. split.
  - intros [-> ->] Hacc. cbn [andb]. rewrite Hd, Hts.
    unfold calls, outcome.
    rewrite (print_detection_accepted w (env_timestamp e) (JStr (env_topic e))
               (env_data e) _ Hacc).
    reflexivity.
  - intros Hno.
    destruct (contains (lit "VideoAnalytics") (env_topic e));
      destruct (contains (lit "ObjectDetected") (env_topic e));
      try reflexivity.
    exfalso; apply Hno; split; reflexivity.
Qed.

(** C2 (as the specification has it) fails: the payload decodes to an
    envelope whose topic holds both substrings and ends with a lone
    surrogate; the title and the time are printed, the console refuses
    the topic line, and the loop body raises [UnicodeEncodeError] with
    the block cut short. *)
Lemma lone_surrogate_cuts_the_block_short :
  let payload := strip (slice_from 5 surrogate_topic_line) in
  let topic := lit "tns1:VideoAnalytics/ObjectDetected" ++ [0xD800%N] in
  let value := JDict [(lit "topic", JStr topic)] in
  Runtime.loads (limits utf8_world) payload = Runtime.Value value
  /\ read_envelope value
     = Some {| env_topic := topic; env_data := []; env_timestamp := Unknown |}
  /\ contains (lit "VideoAnalytics") topic = true
  /\ contains (lit "ObjectDetected") topic = true
  /\ loop_body utf8_world (Text surrogate_topic_line) []
     = ([ Print (echo surrogate_topic_line); JsonLoads payload;
          Print detection_title; Print (time_line mute Unknown) ],
        Raises (Exn UnicodeEncodeError [])).
Proof. cbv zeta. repeat split; vm_compute; reflexivity. Qed.

(** *** The whole function *)


(** The function, once its three opening texts are written. *)
Lemma subscribe_after_opening (w : world) (camera_ip : str)
    (username password : option str) (cam : camera) (h : list call) :
  accepts w (banner_subscribing camera_ip) ->
  accepts w banner_listening ->
  accepts w rule_equals ->
  let attempt :=
    try_except (listen w camera_ip (or_default username (lit "root"))
                  (or_default password (lit "pass")) cam) (report w) in
  subscribe_to_events w camera_ip username password cam h =
    (opening camera_ip ++ calls attempt (h ++ opening camera_ip),
     outcome attempt (h ++ opening camera_ip)).
Proof.
  intros H1 H2 H3. cbv zeta. unfold subscribe_to_events.
  rewrite (bind_print_accepted w _ _ _ h H1). unfold calls, outcome.
  rewrite (bind_print_accepted w _ _ _ _ H2). unfold calls, outcome.
  rewrite (bind_print_accepted w _ _ _ _ H3). unfold calls, outcome.
  cbn [fst snd]. unfold opening. rewrite <- !app_assoc. reflexivity.
Qed.



(** *** Topics that are no strings *)

(** X3. When [topic] is a list and [data] a mapping or absent, the test
    is list membership, not a substring test: on a text line whose echo
    is written, the detection block is printed when both
    [VideoAnalytics] and [ObjectDetected] are elements of the list and
    the console takes the seven texts, the topic line showing the list;
    when one of the two is no element, the echo is all that is
    printed. *)
Theorem list_topic_is_tested_by_membership
    (w : world) (s : str) (d : list (str * json)) (items : list json)
    (data : list (str * json)) (h : list call) :
  startswith (lit "data:") s = true ->
  console w h (echo s) = Written ->
  Runtime.loads (limits w) (strip (slice_from 5 s)) = Runtime.Value (JDict d) ->
  dict_lookup d (lit "topic") = Some (JList items) ->
  field d (lit "data") (JDict []) = JDict data ->
  let decoded := [Print (echo s); JsonLoads (strip (slice_from 5 s))] in
  let block := block_lines (runtime w) (field d (lit "@timestamp") Unknown)
                 (JList items) data in
  (In (JStr (lit "VideoAnalytics")) items /\
   In (JStr (lit "ObjectDetected")) items ->
   Forall (accepts w) block ->
   loop_body w (Text s) h = (decoded ++ map Print block, Returns tt))
  /\ (~ (In (JStr (lit "VideoAnalytics")) items /\
         In (JStr (lit "ObjectDetected")) items) ->
      loop_body w (Text s) h = (decoded, Returns tt)).
Proof.
  intros Hprefix Hecho Hloads Htopic Hdata. cbv zeta.
  assert (Hfield : field d (lit "topic") Unknown = JList items)
    by (unfold field; rewrite Htopic; reflexivity).
  pose proof (fun a b => loop_body_object w s d a b h Hprefix Hecho Hloads)
    as Hbody.
  rewrite Hfield in Hbody. specialize (Hbody _ _ eq_refl eq_refl).
  cbv zeta in Hbody. rewrite Hbody. rewrite <- !RunFacts.member_spec. split.
  - intros [-> ->] Hacc. cbn [andb]. rewrite Hdata. unfold calls, outcome.
    rewrite (print_detection_accepted w _ _ _ _ Hacc). reflexivity.
  - intros Hno.
    match goal with
    | |- (if ?a && ?b then _ else _) = _ =>
        destruct a; destruct b; try reflexivity
    end.
    exfalso; apply Hno; split; reflexivity.
Qed.

(** X4. When [topic] is itself an object and [data] a mapping or absent,
    the test is key membership: on a text line whose echo is written,
    the detection block is printed when both [VideoAnalytics] and
    [ObjectDetected] are keys of that object and the console takes the
    seven texts; when one of the two is no key, the echo is all that is
    printed. *)
Theorem dict_topic_is_tested_by_key
    (w : world) (s : str) (d keys data : list (str * json)) (h : list call) :
  startswith (lit "data:") s = true ->
  console w h (echo s) = Written ->
  Runtime.loads (limits w) (strip (slice_from 5 s)) = Runtime.Value (JDict d) ->
  dict_lookup d (lit "topic") = Some (JDict keys) ->
  field d (lit "data") (JDict []) = JDict data ->
  let decoded := [Print (echo s); JsonLoads (strip (slice_from 5 s))] in
  let block := block_lines (runtime w) (field d (lit "@timestamp") Unknown)
                 (JDict keys) data in
  (dict_lookup keys (lit "VideoAnalytics") <> None /\
   dict_lookup keys (lit "ObjectDetected") <> None ->
   Forall (accepts w) block ->
   loop_body w (Text s) h = (decoded ++ map Print block, Returns tt))
  /\ (~ (dict_lookup keys (lit "VideoAnalytics") <> None /\
         dict_lookup keys (lit "ObjectDetected") <> None) ->
      loop_body w (Text s) h = (decoded, Returns tt)).
Proof.
  intros Hprefix Hecho Hloads Htopic Hdata. cbv zeta.
  assert (Hfield : field d (lit "topic") Unknown = JDict keys)
    by (unfold field; rewrite Htopic; reflexivity).
  pose proof (fun a b => loop_body_object w s d a b h Hprefix Hecho Hloads)
    as Hbody.
  rewrite Hfield in Hbody. specialize (Hbody _ _ eq_refl eq_refl).
  cbv zeta in Hbody. rewrite Hbody. split.
  - intros [Hva Hod] Hacc.
    destruct (dict_lookup keys (lit "VideoAnalytics")); [|congruence].
    destruct (dict_lookup keys (lit "ObjectDetected")); [|congruence].
    cbn [andb]. rewrite Hdata. unfold calls, outcome.
    rewrite (print_detection_accepted w _ _ _ _ Hacc). reflexivity.
  - intros Hno.
    destruct (dict_lookup keys (lit "VideoAnalytics"));
      destruct (dict_lookup keys (lit "ObjectDetected")); try reflexivity.
    exfalso; apply Hno; split; discriminate.
Qed.

(** *** String topics *)

(** X7. A matching topic with a [data] that is not a mapping, on a text
    line whose echo is written: when the console takes the title, the
    time and the topic, these three are printed and the first lookup in
    [data] raises [AttributeError]; the class, confidence and bounding
    box lines and the closing rule are never printed. *)
Theorem detection_with_bad_data_is_cut_short
    (w : world) (s : str) (d : list (str * json)) (t : str) (data : json)
    (h : list call) :
  startswith (lit "data:") s = true ->
  console w h (echo s) = Written ->
  Runtime.loads (limits w) (strip (slice_from 5 s)) = Runtime.Value (JDict d) ->
  field d (lit "topic") Unknown = JStr t ->
  occurs_in (lit "VideoAnalytics") t ->
  occurs_in (lit "ObjectDetected") t ->
  dict_lookup d (lit "data") = Some data ->
  is_dict data = false ->
  accepts w detection_title ->
  accepts w (time_line (runtime w) (field d (lit "@timestamp") Unknown)) ->
  accepts w (topic_line (runtime w) (JStr t)) ->
  loop_body w (Text s) h =
    ([ Print (echo s); JsonLoads (strip (slice_from 5 s));
       Print detection_title;
       Print (time_line (runtime w) (field d (lit "@timestamp") Unknown));
       Print (topic_line (runtime w) (JStr t)) ],
     Raises (Exn AttributeError
               (attribute_error_text (runtime w) data (lit "get")))).
Proof.
  intros Hprefix Hecho Hloads Htopic Hva Hod Hdata Hbad H1 H2 H3.
  pose proof (fun a b => loop_body_object w s d a b h Hprefix Hecho Hloads)
    as Hbody.
  rewrite Htopic in Hbody. specialize (Hbody _ _ eq_refl eq_refl).
  cbv zeta in Hbody. rewrite Hbody.
  apply StrFacts.contains_spec in Hva, Hod. rewrite Hva, Hod. cbn [andb].
  unfold field at 2 4. rewrite Hdata.
  unfold print_detection, calls, outcome.
  rewrite (bind_print_accepted w _ _ _ _ H1). unfold calls, outcome.
  rewrite (bind_print_accepted w _ _ _ _ H2). unfold calls, outcome.
  rewrite (bind_print_accepted w _ _ _ _ H3). unfold calls, outcome.
  destruct data; try discriminate Hbad; reflexivity.
Qed.

(** X8. A matching topic in an object that has neither [data] nor
    [@timestamp], on a text line whose echo is written: when the
    console takes the seven texts, the full block is printed, with
    [Unknown] for the time and [N/A] for the class, the confidence and
    the bounding box. *)
Theorem bare_detection_uses_placeholders
    (w : world) (s : str) (d : list (str * json)) (t : str) (h : list call) :
  startswith (lit "data:") s = true ->
  console w h (echo s) = Written ->
  Runtime.loads (limits w) (strip (slice_from 5 s)) = Runtime.Value (JDict d) ->
  dict_lookup d (lit "topic") = Some (JStr t) ->
  occurs_in (lit "VideoAnalytics") t ->
  occurs_in (lit "ObjectDetected") t ->
  dict_lookup d (lit "data") = None ->
  dict_lookup d (lit "@timestamp") = None ->
  let block :=
    [ 0x1F3AF%N :: lit " OBJECT DETECTION EVENT!";
      lit "   " ++ 0x23F0%N :: lit " Time: Unknown";
      lit "   " ++ 0x1F4C2%N :: lit " Topic: " ++ t;
      lit "   " ++ 0x1F3F7%N :: 0xFE0F%N :: lit "  Class: N/A";
      lit "   " ++ 0x1F4CA%N :: lit " Confidence: N/A";
      lit "   " ++ 0x1F4D0%N :: lit " BBox: N/A";
      lit "------------------------------------------------------------" ] in
  Forall (accepts w) block ->
  loop_body w (Text s) h =
    ([Print ([0x1F4E8%N; 32%N] ++ s); JsonLoads (strip (slice_from 5 s))]
       ++ map Print block,
     Returns tt).
Proof.
  intros Hprefix Hecho Hloads Htopic Hva Hod Hdata Hts. cbv zeta. intros Hacc.
  assert (Hfield : field d (lit "topic") Unknown = JStr t)
    by (unfold field; rewrite Htopic; reflexivity).
  pose proof (fun a b => loop_body_object w s d a b h Hprefix Hecho Hloads)
    as Hbody.
  rewrite Hfield in Hbody. specialize (Hbody _ _ eq_refl eq_refl).
  cbv zeta in Hbody. rewrite Hbody.
  apply StrFacts.contains_spec in Hva, Hod. rewrite Hva, Hod. cbn [andb].
  unfold field. rewrite Hdata, Hts. unfold calls, outcome.
  rewrite (print_detection_accepted w Unknown (JStr t) [] _ Hacc).
  reflexivity.
Qed.

(** X9. The substring test looks at neither order nor position: a topic
    string in which [ObjectDetected] comes before [VideoAnalytics], with
    anything around and between them, is reported as a detection all the
    same, when the echo is written and the console takes the seven
    texts of the block. *)
Theorem topic_test_ignores_order
    (w : world) (s : str) (v : json) (e : envelope)
    (before between after : str) (h : list call) :
  startswith (lit "data:") s = true ->
  console w h (echo s) = Written ->
  Runtime.loads (limits w) (strip (slice_from 5 s)) = Runtime.Value v ->
  read_envelope v = Some e ->
  env_topic e = before ++ lit "ObjectDetected" ++ between
                  ++ lit "VideoAnalytics" ++ after ->
  Forall (accepts w) (detection_block (runtime w) e) ->
  printed (calls (loop_body w (Text s)) h)
  = echo s :: detection_block (runtime w) e.
Proof.
  intros Hprefix Hecho Hloads Henv Htopic Hacc.
  destruct (read_envelope_fields v e Henv) as (d & -> & Ht & Hd & Hts).
  pose proof (fun a b => loop_body_object w s d a b h Hprefix Hecho Hloads)
    as Hbody.
  rewrite Ht in Hbody. specialize (Hbody _ _ eq_refl eq_refl).
  cbv zeta in Hbody. unfold calls at 1. rewrite Hbody.
  assert (Hva : contains (lit "VideoAnalytics") (env_topic e) = true).
  { apply StrFacts.contains_spec.
    exists (before ++ lit "ObjectDetected" ++ between), after.
    rewrite Htopic, <- !app_assoc. reflexivity. }
  assert (Hod : contains (lit "ObjectDetected") (env_topic e) = true).
  { apply StrFacts.contains_spec.
    exists before, (between ++ lit "VideoAnalytics" ++ after).
    rewrite Htopic. reflexivity. }
  rewrite Hva, Hod. cbn [andb]. rewrite Hd, Hts. unfold calls.
  rewrite (print_detection_accepted w (env_timestamp e) (JStr (env_topic e))
             (env_data e) _ Hacc).
  cbn [fst app printed]. rewrite SubscribeFacts.printed_prints. reflexivity.
Qed.

(** *** Payloads that the interpreter refuses *)

(** X17. A text line on whose payload [json.loads] raises [ValueError]
    (an integer of too many digits) or [RecursionError] (containers
    nested too deep) is not skipped: the echo written, the exception
    leaves the loop body, the loop ends with it and the lines that
    follow are not read. *)
Theorem refused_payload_is_not_skipped
    (w : world) (s : str) (why : Runtime.refusal) (rest : stream)
    (h : list call) :
  startswith (lit "data:") s = true ->
  console w h (echo s) = Written ->
  Runtime.loads (limits w) (strip (slice_from 5 s)) = Runtime.Refusal why ->
  let payload := strip (slice_from 5 s) in
  let e := match why with
           | Runtime.TooManyDigits => Exn ValueError (digits_error_text w payload)
           | Runtime.TooDeep =>
               Exn RecursionError (recursion_error_text w payload)
           end in
  for_each_line w (Line (Text s) rest) h
  = ([Print (echo s); JsonLoads payload], Raises e)
  /\ is_JSONDecodeError e = false
  /\ is_Exception e = true.
Proof.
  intros Hprefix Hecho Hloads. cbv zeta.
  assert (Hbody : loop_body w (Text s) h
                  = ([Print (echo s); JsonLoads (strip (slice_from 5 s))],
                     Raises match why with
                            | Runtime.TooManyDigits =>
                                Exn ValueError
                                  (digits_error_text w (strip (slice_from 5 s)))
                            | Runtime.TooDeep =>
                                Exn RecursionError
                                  (recursion_error_text w
                                     (strip (slice_from 5 s)))
                            end)).
  { rewrite (loop_body_text_written w s h (data_prefix_nonempty s Hprefix) Hecho).
    rewrite Hprefix. unfold calls, outcome. rewrite inner_try. cbv zeta.
    rewrite Hloads.
    destruct (strip (slice_from 5 s)) as [|c payload] eqn:Hp.
    - rewrite loads_empty in Hloads. discriminate Hloads.
    - destruct why; reflexivity. }
  split; [|destruct why; split; reflexivity].
  cbn [for_each_line]. apply bind_raises. exact Hbody.
Qed.

(** *** Whole runs *)

Lemma listen_connected (w : world) (camera_ip : str)
    (username password : option str) (lines : stream) (h : list call) :
  listen w camera_ip (or_default username (lit "root"))
    (or_default password (lit "pass"))
    (Responds {| status_error := None; body := lines |}) h
  = (connecting camera_ip username password
       ++ calls (for_each_line w lines)
            (h ++ connecting camera_ip username password),
     outcome (for_each_line w lines)
       (h ++ connecting camera_ip username password)).
Proof.
  unfold listen, requests_get, raise_for_status, iter_lines, connecting.
  unfold bind, do_call, ret, calls, outcome. cbn [status_error body app].
  rewrite <- !app_assoc. cbn [app].
  destruct (for_each_line w lines _); reflexivity.
Qed.

Lemma plain_text_line (w : world) (l : str) (h : list call) :
  startswith (lit "data:") l = false ->
  (l <> [] -> console w h (echo l) = Written) ->
  loop_body w (Text l) h
  = (if truthy l then [Print (echo l)] else [], Returns tt).
Proof.
  intros Hs Hc. destruct (truthy l) eqn:Ht.
  - rewrite (loop_body_text_written w l h Ht
               (Hc (proj1 (StrFacts.truthy_true l) Ht))).
    rewrite Hs. reflexivity.
  - unfold loop_body. rewrite Ht. reflexivity.
Qed.

Lemma plain_text_lines (w : world) (ls : list str) :
  Forall (fun l => startswith (lit "data:") l = false) ls ->
  Forall (fun l => l <> [] -> accepts w (echo l)) ls ->
  forall h,
    for_each_line w (text_lines ls Eof) h
    = (map (fun l => Print (echo l)) (filter truthy ls), Returns tt).
Proof.
  intros Hplain Hacc. induction ls as [|l ls IH]; intros h; [reflexivity|].
  apply Forall_cons_iff in Hplain, Hacc.
  destruct Hplain as [Hl Hls], Hacc as [Hal Hals].
  cbn [text_lines fold_right for_each_line filter].
  rewrite (bind_returns _ _ _ _ h _ tt
             (plain_text_line w l h Hl (fun Hne => Hal Hne h))).
  unfold calls, outcome. fold (text_lines ls Eof). rewrite (IH Hls Hals).
  destruct (truthy l); reflexivity.
Qed.

(** X15. A response that delivers text lines none of which starts with
    [data:] (comments, heartbeats, blank lines) and then closes: when
    the console takes the opening texts and the echoes, the run returns
    after echoing the non-empty lines in order; [json.loads] is never
    called and neither the stop message nor an error message is
    printed. *)
Theorem plain_lines_are_only_echoed
    (w : world) (camera_ip : str) (username password : option str)
    (ls : list str) (h : list call) :
  Forall (fun l => startswith (lit "data:") l = false) ls ->
  accepts w (banner_subscribing camera_ip) ->
  accepts w banner_listening ->
  accepts w rule_equals ->
  Forall (fun l => l <> [] -> accepts w (echo l)) ls ->
  subscribe_to_events w camera_ip username password
    (Responds {| status_error := None; body := text_lines ls Eof |}) h
  = (opening camera_ip
       ++ connecting camera_ip username password
       ++ map (fun l => Print (echo l)) (filter truthy ls),
     Returns tt).
Proof.
  intros Hplain H1 H2 H3 Hacc.
  rewrite (subscribe_after_opening w camera_ip username password _ h H1 H2 H3).
  cbv zeta. unfold calls at 1, outcome at 1, try_except.
  rewrite listen_connected. unfold calls, outcome.
  rewrite (plain_text_lines w ls Hplain Hacc). reflexivity.
Qed.

(** X18. A response that declares no encoding delivers its lines as
    bytes.  For a first line that is not empty, when the console takes
    the texts printed, the run echoes the [repr] of the bytes, prints
    the error message of the [TypeError] that [startswith] raises, and
    returns: the lines that follow are never read. *)
Theorem bytes_line_ends_the_run
    (w : world) (camera_ip : str) (username password : option str)
    (b : list ascii) (rest : stream) (h : list call) :
  b <> [] ->
  accepts w (banner_subscribing camera_ip) ->
  accepts w banner_listening ->
  accepts w rule_equals ->
  accepts w (echo (bytes_repr b)) ->
  accepts w (error_message (Exn TypeError (startswith_error_text w))) ->
  subscribe_to_events w camera_ip username password
    (Responds {| status_error := None; body := Line (Bytes b) rest |}) h
  = (opening camera_ip
       ++ connecting camera_ip username password
       ++ [ Print (echo (bytes_repr b));
            Print (error_message (Exn TypeError (startswith_error_text w))) ],
     Returns tt).
Proof.
  intros Hb H1 H2 H3 Hecho Herr.
  rewrite (subscribe_after_opening w camera_ip username password _ h H1 H2 H3).
  cbv zeta. unfold calls at 1, outcome at 1, try_except.
  rewrite listen_connected. unfold calls, outcome.
  assert (Hbody : forall h', loop_body w (Bytes b) h'
                  = ([Print (echo (bytes_repr b))],
                     Raises (Exn TypeError (startswith_error_text w)))).
  { intros h'. rewrite (loop_body_bytes w b h' Hb), (Hecho h'). reflexivity. }
  cbn [for_each_line].
  rewrite (bind_raises _ _ _ _ _ _ _ (Hbody _)).
  cbn [fst snd report is_KeyboardInterrupt is_Exception exn_class_of].
  rewrite (print_written w _ _ (Herr _)). reflexivity.
Qed.

Lemma bind_print_cases (w : world) (A : Type) (text : str)
    (k : unit -> M A) (h : list call) :
  bind (print w text) k h =
    match console w h text with
    | Written =>
        (Print text :: calls (k tt) (h ++ [Print text]),
         outcome (k tt) (h ++ [Print text]))
    | Refused why => ([], Raises (failure w why text))
    | WrittenThen why => ([Print text], Raises (failure w why text))
    end.
Proof.
  unfold bind, print, calls, outcome.
  destruct (console w h text); try reflexivity.
  destruct (k tt (h ++ [Print text])); reflexivity.
Qed.

(** X21. An empty line, text or bytes, is skipped in any environment:
    the loop body makes no call for it, and the loop over a body that
    starts with it does what the loop over the rest does. *)
Theorem empty_line_is_skipped_anywhere
    (w : world) (rest : stream) (h : list call) :
  loop_body w (Text []) h = ([], Returns tt)
  /\ loop_body w (Bytes []) h = ([], Returns tt)
  /\ for_each_line w (Line (Text []) rest) h = for_each_line w rest h
  /\ for_each_line w (Line (Bytes []) rest) h = for_each_line w rest h.
Proof.
  repeat split; try reflexivity;
    cbn [for_each_line loop_body truthy]; unfold bind, ret;
    rewrite app_nil_r; destruct (for_each_line w rest h); reflexivity.
Qed.

Lemma listen_first_call (w : world) (camera_ip username password : str)
    (cam : camera) (h : list call) :
  exists later,
    calls (listen w camera_ip username password cam) h
    = RequestsGet (subscription camera_ip username password) :: later.
Proof.
  unfold listen, requests_get. rewrite calls_bind_at.
  rewrite (calls_bind_at _ _ (do_call _) _ h). cbn [calls do_call fst app].
  eexists. reflexivity.
Qed.

(** X22. In any environment, once the console has taken the three
    opening texts, the next call is the request, built from the camera
    address and the credentials given or their defaults; the opening
    texts are all that precedes it. *)
Theorem request_follows_the_opening
    (w : world) (camera_ip : str) (username password : option str)
    (cam : camera) (h : list call) :
  accepts w (banner_subscribing camera_ip) ->
  accepts w banner_listening ->
  accepts w rule_equals ->
  exists later,
    calls (subscribe_to_events w camera_ip username password cam) h
    = opening camera_ip
        ++ RequestsGet
             {| req_url := lit "http://" ++ camera_ip
                             ++ lit "/axis-cgi/event.cgi";
                req_params := [(lit "action", lit "subscribe");
                               (lit "events", lit "tns1:VideoAnalytics/*")];
                req_auth := HTTPDigestAuth (or_default username (lit "root"))
                              (or_default password (lit "pass"));
                req_stream := true;
                req_timeout := 60 |}
        :: later.
Proof.
  intros H1 H2 H3. unfold calls at 1.
  rewrite (subscribe_after_opening w camera_ip username password cam h H1 H2 H3).
  cbv zeta. cbn [fst].
  destruct (listen_first_call w camera_ip (or_default username (lit "root"))
              (or_default password (lit "pass")) cam (h ++ opening camera_ip))
    as [later Hl].
  unfold calls at 1, try_except.
  rewrite (run_pair _ (listen w camera_ip _ _ cam) (h ++ opening camera_ip)).
  rewrite Hl. unfold subscription.
  destruct (outcome (listen w camera_ip _ _ cam) (h ++ opening camera_ip))
    as [[]|e]; [eexists; reflexivity|].
  destruct (report w e) as [hd|]; [|eexists; reflexivity].
  destruct (hd _) as [t r]. cbn [fst app]. eexists. reflexivity.
Qed.

(** X23. The opening texts are printed outside the [try]: when the
    console refuses the first of them, the exception of [print] reaches
    the caller and nothing is done, no request either; when it refuses
    the second or the third, what was printed before is all that is
    done. *)
Theorem refused_opening_text_reaches_the_caller
    (w : world) (camera_ip : str) (username password : option str)
    (cam : camera) (h : list call) (why : console_error) :
  (console w h (banner_subscribing camera_ip) = Refused why ->
   subscribe_to_events w camera_ip username password cam h
   = ([], Raises (failure w why (banner_subscribing camera_ip))))
  /\ (console w h (banner_subscribing camera_ip) = Written ->
      console w (h ++ [Print (banner_subscribing camera_ip)]) banner_listening
      = Refused why ->
      subscribe_to_events w camera_ip username password cam h
      = ([Print (banner_subscribing camera_ip)],
         Raises (failure w why banner_listening)))
  /\ (console w h (banner_subscribing camera_ip) = Written ->
      console w (h ++ [Print (banner_subscribing camera_ip)]) banner_listening
      = Written ->
      console w ((h ++ [Print (banner_subscribing camera_ip)])
                   ++ [Print banner_listening]) rule_equals
      = Refused why ->
      subscribe_to_events w camera_ip username password cam h
      = ([Print (banner_subscribing camera_ip); Print banner_listening],
         Raises (failure w why rule_equals))).
Proof.
  unfold subscribe_to_events. repeat split.
  - intros H1. rewrite bind_print_cases, H1. reflexivity.
  - intros H1 H2. rewrite bind_print_cases, H1. unfold calls, outcome.
    rewrite bind_print_cases, H2. reflexivity.
  - intros H1 H2 H3. rewrite bind_print_cases, H1. unfold calls, outcome.
    rewrite bind_print_cases, H2. unfold calls, outcome.
    rewrite bind_print_cases, H3. reflexivity.
Qed.

(** *** A console that refuses a text *)


Lemma print_in_order (w : world) (text : str) :
  prints_in_order w [text] (print w text).
Proof.
  intros h. unfold calls, outcome, print.
  destruct (console w h text) as [|why|why]; cbn [fst snd].
  - exists 1. repeat split; intros e H; discriminate H.
  - exists 0. repeat split; [discriminate|].
    intros e H. inversion H. exists why, text. split; [left|]; reflexivity.
  - exists 1. repeat split.
    intros e H. inversion H. exists why, text. split; [left|]; reflexivity.
Qed.

Lemma print_then_in_order (w : world) (text : str) (texts : list str)
    (k : unit -> M unit) :
  prints_in_order w texts (k tt) ->
  prints_in_order w (text :: texts) (bind (print w text) k).
Proof.
  intros Hk h. unfold calls, outcome. rewrite bind_print_cases.
  destruct (console w h text) as [|why|why]; cbn [fst snd].
  - destruct (Hk (h ++ [Print text])) as (n & Hc & Hr & He).
    exists (S n). cbn [firstn map List.length]. rewrite Hc.
    repeat split.
    + intros H. rewrite (Hr H). reflexivity.
    + intros e H. destruct (He e H) as (why & t & Hin & ->).
      exists why, t. split; [right; exact Hin | reflexivity].
  - exists 0. repeat split; [discriminate|].
    intros e H. inversion H. exists why, text. split; [left|]; reflexivity.
  - exists 1. repeat split; [discriminate|].
    intros e H. inversion H. exists why, text. split; [left|]; reflexivity.
Qed.

Lemma get_then_in_order (w : world) (texts : list str)
    (d : list (str * json)) (key : str) (placeholder : json)
    (k : json -> M unit) :
  prints_in_order w texts (k (field d key placeholder)) ->
  prints_in_order w texts (bind (get w (JDict d) key placeholder) k).
Proof. intros Hk h. unfold calls, outcome. rewrite bind_get_dict. apply Hk. Qed.

(** X20. The detection block is printed in order and stops at the first
    text on which [print] raises: for a [data] mapping, what
    [print_detection] prints is the first [n] of the seven texts; it
    returns only when all seven are printed, and the only exceptions it
    raises are those of [print] on one of the seven. *)
Theorem detection_block_stops_at_refused_text
    (w : world) (timestamp topic : json) (data : list (str * json))
    (h : list call) :
  let block := block_lines (runtime w) timestamp topic data in
  exists n,
    calls (print_detection w timestamp topic (JDict data)) h
    = map Print (firstn n block)
    /\ (outcome (print_detection w timestamp topic (JDict data)) h = Returns tt
        -> n = 7)
    /\ (forall e,
          outcome (print_detection w timestamp topic (JDict data)) h = Raises e
          -> exists why text, In text block /\ e = failure w why text).
Proof.
  cbv zeta. revert h.
  change (prints_in_order w (block_lines (runtime w) timestamp topic data)
            (print_detection w timestamp topic (JDict data))).
  unfold block_lines, print_detection.
  do 3 apply print_then_in_order.
  apply get_then_in_order. unfold class_line.
  rewrite (SubscribeFacts.format_field (runtime w)).
  apply print_then_in_order.
  apply get_then_in_order. unfold confidence_line.
  rewrite (SubscribeFacts.format_field (runtime w)).
  apply print_then_in_order.
  apply get_then_in_order. unfold bbox_line.
  rewrite (SubscribeFacts.format_field (runtime w)).
  apply print_then_in_order.
  apply print_in_order.
Qed.

(** *** The ideal environment *)






Section Ideal.

Variable py : interpreter.













End Ideal.

(** *** Instances on concrete inputs *)

Lemma malformed_text_line_is_skipped_witness :
  loop_body utf8_world (Text malformed_line) []
  = ([Print (echo malformed_line); JsonLoads (lit "{oops")], Returns tt).
Proof.
  refine (proj1 (malformed_text_line_is_skipped utf8_world malformed_line
                   Eof [] _ _ _ _)).
  - reflexivity.
  - vm_compute. discriminate.
  - vm_compute. reflexivity.
  - reflexivity.
Defined.



Lemma detection_block_iff_topic_matches_witness :
  loop_body utf8_world (Text example_line) []
  = ([Print (echo example_line);
      JsonLoads (strip (slice_from 5 example_line))]
       ++ map Print (detection_block mute example_envelope),
     Returns tt).
Proof.
  refine (proj1 (detection_block_iff_topic_matches utf8_world example_line
                   example_value example_envelope [] _ _ _ _) _ _).
  - reflexivity.
  - vm_compute. reflexivity.
  - reflexivity.
  - reflexivity.
  - split; apply StrFacts.contains_spec; vm_compute; reflexivity.
  - repeat apply Forall_cons; try apply Forall_nil; intros history;
      vm_compute; reflexivity.
Defined.


Lemma list_topic_is_tested_by_membership_witness :
  loop_body utf8_world (Text list_topic_line) []
  = ([Print (echo list_topic_line);
      JsonLoads (strip (slice_from 5 list_topic_line))]
       ++ map Print
            (block_lines mute Unknown
               (JList [JStr (lit "VideoAnalytics");
                       JStr (lit "ObjectDetected")]) []),
     Returns tt).
Proof.
  refine (proj1 (list_topic_is_tested_by_membership utf8_world list_topic_line
                   [(lit "topic", JList [JStr (lit "VideoAnalytics");
                                         JStr (lit "ObjectDetected")])]
                   [JStr (lit "VideoAnalytics"); JStr (lit "ObjectDetected")]
                   [] [] _ _ _ _ _) _ _).
  - reflexivity.
  - reflexivity.
  - vm_compute. reflexivity.
  - reflexivity.
  - reflexivity.
  - split; [left | right; left]; reflexivity.
  - repeat apply Forall_cons; try apply Forall_nil; intros history;
      vm_compute; reflexivity.
Defined.

Lemma dict_topic_is_tested_by_key_witness :
  loop_body utf8_world (Text dict_topic_line) []
  = ([Print (echo dict_topic_line);
      JsonLoads (strip (slice_from 5 dict_topic_line))]
       ++ map Print
            (block_lines mute Unknown
               (JDict [(lit "VideoAnalytics", JInt 1);
                       (lit "ObjectDetected", JInt 2)]) []),
     Returns tt).
Proof.
  refine (proj1 (dict_topic_is_tested_by_key utf8_world dict_topic_line
                   [(lit "topic", JDict [(lit "VideoAnalytics", JInt 1);
                                         (lit "ObjectDetected", JInt 2)])]
                   [(lit "VideoAnalytics", JInt 1);
                    (lit "ObjectDetected", JInt 2)]
                   [] [] _ _ _ _ _) _ _).
  - reflexivity.
  - reflexivity.
  - vm_compute. reflexivity.
  - reflexivity.
  - reflexivity.
  - split; vm_compute; discriminate.
  - repeat apply Forall_cons; try apply Forall_nil; intros history;
      vm_compute; reflexivity.
Defined.

Lemma detection_with_bad_data_is_cut_short_witness :
  loop_body utf8_world (Text bad_data_line) []
  = ([ Print (echo bad_data_line);
       JsonLoads (strip (slice_from 5 bad_data_line));
       Print detection_title;
       Print (time_line mute Unknown);
       Print (topic_line mute
                (JStr (lit "tns1:VideoAnalytics/ObjectDetected"))) ],
     Raises (Exn AttributeError [])).
Proof.
  refine (detection_with_bad_data_is_cut_short utf8_world bad_data_line
            [(lit "topic", JStr (lit "tns1:VideoAnalytics/ObjectDetected"));
             (lit "data", JInt 7)]
            (lit "tns1:VideoAnalytics/ObjectDetected") (JInt 7) []
            _ _ _ _ _ _ _ _ _ _ _).
  - reflexivity.
  - reflexivity.
  - vm_compute. reflexivity.
  - reflexivity.
  - apply StrFacts.contains_spec. vm_compute. reflexivity.
  - apply StrFacts.contains_spec. vm_compute. reflexivity.
  - reflexivity.
  - reflexivity.
  - intros history. reflexivity.
  - intros history. reflexivity.
  - intros history. reflexivity.
Defined.

Lemma bare_detection_uses_placeholders_witness :
  printed (calls (loop_body utf8_world (Text bare_detection_line)) [])
  = [ [0x1F4E8%N; 32%N] ++ bare_detection_line;
      0x1F3AF%N :: lit " OBJECT DETECTION EVENT!";
      lit "   " ++ 0x23F0%N :: lit " Time: Unknown";
      lit "   " ++ 0x1F4C2%N :: lit " Topic: tns1:VideoAnalytics/ObjectDetected";
      lit "   " ++ 0x1F3F7%N :: 0xFE0F%N :: lit "  Class: N/A";
      lit "   " ++ 0x1F4CA%N :: lit " Confidence: N/A";
      lit "   " ++ 0x1F4D0%N :: lit " BBox: N/A";
      lit "------------------------------------------------------------" ].
Proof.
  unfold calls.
  rewrite (bare_detection_uses_placeholders utf8_world bare_detection_line
             [(lit "topic", JStr (lit "tns1:VideoAnalytics/ObjectDetected"))]
             (lit "tns1:VideoAnalytics/ObjectDetected") []).
  - reflexivity.
  - reflexivity.
  - reflexivity.
  - vm_compute. reflexivity.
  - reflexivity.
  - apply StrFacts.contains_spec. vm_compute. reflexivity.
  - apply StrFacts.contains_spec. vm_compute. reflexivity.
  - reflexivity.
  - reflexivity.
  - repeat apply Forall_cons; try apply Forall_nil; intros history;
      vm_compute; reflexivity.
Defined.

Lemma topic_test_ignores_order_witness :
  printed (calls (loop_body utf8_world (Text reversed_topic_line)) [])
  = echo reversed_topic_line
      :: detection_block mute
           {| env_topic := lit "ObjectDetected/VideoAnalytics";
              env_data := [];
              env_timestamp := Unknown |}.
Proof.
  refine (topic_test_ignores_order utf8_world reversed_topic_line
            (JDict [(lit "topic", JStr (lit "ObjectDetected/VideoAnalytics"))])
            {| env_topic := lit "ObjectDetected/VideoAnalytics";
               env_data := [];
               env_timestamp := Unknown |}
            [] (lit "/") [] [] _ _ _ _ _ _).
  - reflexivity.
  - reflexivity.
  - vm_compute. reflexivity.
  - reflexivity.
  - reflexivity.
  - repeat apply Forall_cons; try apply Forall_nil; intros history;
      vm_compute; reflexivity.
Defined.

Lemma refused_payload_is_not_skipped_witness :
  for_each_line utf8_world
    (Line (Text big_integer_line) (Line (Text example_line) Eof)) []
  = ([Print (echo big_integer_line);
      JsonLoads (strip (slice_from 5 big_integer_line))],
     Raises (Exn ValueError [])).
Proof.
  refine (proj1 (refused_payload_is_not_skipped utf8_world big_integer_line
                   Runtime.TooManyDigits (Line (Text example_line) Eof) []
                   _ _ _)).
  - reflexivity.
  - vm_compute. reflexivity.
  - vm_compute. reflexivity.
Defined.

Lemma plain_lines_are_only_echoed_witness :
  subscribe_to_events utf8_world (lit "192.0.2.1") None None
    (Responds {| status_error := None;
                 body := Line (Text (lit ": heartbeat"))
                           (Line (Text [])
                              (Line (Text (lit "event: notification")) Eof)) |})
    []
  = (opening (lit "192.0.2.1")
       ++ connecting (lit "192.0.2.1") None None
       ++ [ Print (echo (lit ": heartbeat"));
            Print (echo (lit "event: notification")) ],
     Returns tt).
Proof.
  refine (plain_lines_are_only_echoed utf8_world (lit "192.0.2.1") None None
            [lit ": heartbeat"; []; lit "event: notification"] [] _ _ _ _ _).
  - repeat constructor.
  - intros history. reflexivity.
  - intros history. reflexivity.
  - intros history. reflexivity.
  - repeat apply Forall_cons; try apply Forall_nil; intros _ history;
      vm_compute; reflexivity.
Defined.

Lemma bytes_line_ends_the_run_witness :
  subscribe_to_events utf8_world (lit "192.0.2.1") None None
    (Responds {| status_error := None;
                 body := Line (Bytes bytes_data_line)
                           (Line (Text example_line) Eof) |}) []
  = (opening (lit "192.0.2.1")
       ++ connecting (lit "192.0.2.1") None None
       ++ [ Print ([0x1F4E8%N; 32%N] ++ lit "b'data: 42'");
            Print (0x274C%N :: lit " Error: ") ],
     Returns tt).
Proof.
  refine (bytes_line_ends_the_run utf8_world (lit "192.0.2.1") None None
            bytes_data_line (Line (Text example_line) Eof) [] _ _ _ _ _ _).
  - discriminate.
  - intros history. reflexivity.
  - intros history. reflexivity.
  - intros history. reflexivity.
  - intros history. vm_compute. reflexivity.
  - intros history. reflexivity.
Defined.

Lemma request_follows_the_opening_witness :
  exists later,
    calls (subscribe_to_events utf8_world (lit "192.0.2.1")
             (Some (lit "operator")) None
             (Unreachable (Exn OtherException (lit "connection refused")))) []
    = opening (lit "192.0.2.1")
        ++ RequestsGet
             {| req_url := lit "http://192.0.2.1/axis-cgi/event.cgi";
                req_params := [(lit "action", lit "subscribe");
                               (lit "events", lit "tns1:VideoAnalytics/*")];
                req_auth := HTTPDigestAuth (lit "operator") (lit "pass");
                req_stream := true;
                req_timeout := 60 |}
        :: later.
Proof.
  refine (request_follows_the_opening utf8_world (lit "192.0.2.1")
            (Some (lit "operator")) None
            (Unreachable (Exn OtherException (lit "connection refused"))) []
            _ _ _);
    intros history; reflexivity.
Defined.

Lemma refused_opening_text_reaches_the_caller_witness :
  subscribe_to_events ascii_world (lit "192.0.2.1") None None
    (Responds {| status_error := None; body := Eof |}) []
  = ([], Raises (Exn UnicodeEncodeError [])).
Proof.
  refine (proj1 (refused_opening_text_reaches_the_caller ascii_world
                   (lit "192.0.2.1") None None
                   (Responds {| status_error := None; body := Eof |}) []
                   Unencodable) _).
  reflexivity.
Defined.

End SessionFacts.
